(** * e-book-assistant-fe: the summary cache and the document status poller

    A shallow embedding of
      - [src/lib/cache.ts]            (class SummaryCacheManager),
      - [src/hooks/use-api.ts]        (useSummarize),
      - [src/components/PdfUploader.tsx] and [src/pages/doc/[docId].tsx]
        (getBackoffDelay, pollDocumentStatus, handleCancel),
    followed by the properties the specification states about them.

    Conventions of the embedding.
      - JavaScript numbers that hold millisecond times and chunk counts are
        whole numbers ([Z]): [Date.now()] returns one, and a chunk count
        arrives in a JSON response, which carries no infinity and no NaN, as
        a count.  The [ttl] a caller passes is any number: a whole number of
        milliseconds, an infinity or NaN ([JsNumber]).  Whole numbers stay
        within the safe integers, where JavaScript arithmetic is exact.
        Attempt indices start at 0 and only grow ([nat]).
      - The cache is a plain object: reading [cache[key]] finds the own
        properties and, behind them, the members of Object.prototype;
        writing [cache['__proto__']] on an object without that own property
        sets the prototype and stores nothing.  JSON.stringify writes the
        own properties only, and writes a number that is not finite as
        [null].
      - An optional argument [x?: T] is an [option T]; JavaScript truthiness
        of a string ([userId ? .. : ..], [if (cachedSummary)]) is [truthy].
      - [localStorage] holds one item under CACHE_KEY: it is absent, holds the
        JSON text of a cache object, or holds text that JSON.parse rejects.
        The code always runs in the browser ([window] is defined) and
        [localStorage.setItem] succeeds.
      - A call of a public cache method is synchronous; the reads of
        [Date.now()] made inside one call return one value, the argument
        [now] of the embedded function. *)

From stdpp Require Import base strings gmap list fin_maps.
From Stdlib Require Import ZArith Lia.

Local Open Scope Z_scope.

(** ** JavaScript truthiness of an optional string *)

Definition truthy (s : option string) : bool :=
  match s with
  | Some EmptyString => false
  | Some _ => true
  | None => false
  end.

(** ** JavaScript values of the embedding *)

(** A number as a caller can pass it. *)
Inductive JsNumber :=
| Finite (z : Z)
| PlusInfinity
| MinusInfinity
| NaN.

(** A number field as JSON.parse reads it back: JSON.stringify has written
    a number that is not finite as [null]. *)
Inductive JsonNumber :=
| Num (z : Z)
| JsonNull.

(** ToNumber, as the relational operators apply it: [null] counts as 0. *)
Definition toNumber (n : JsonNumber) : Z :=
  match n with
  | Num z => z
  | JsonNull => 0
  end.

(** [Date.now() + t], written and read back through JSON. *)
Definition addToNow (now : Z) (t : JsNumber) : JsonNumber :=
  match t with
  | Finite z => Num (now + z)
  | PlusInfinity | MinusInfinity | NaN => JsonNull
  end.

(** What getSummary returns: its type says [string | null], and reading
    the field [summary] of an inherited member gives [undefined]. *)
Inductive JsValue :=
| JsNull
| JsUndefined
| JsString (s : string).

Global Instance JsValue_eq_dec : EqDecision JsValue.
Proof. solve_decision. Defined.

Definition truthyValue (v : JsValue) : bool :=
  match v with
  | JsString s => truthy (Some s)
  | JsNull | JsUndefined => false
  end.

(** The string of a value that is one (used where the value is truthy). *)
Definition stringOf (v : JsValue) : string :=
  match v with
  | JsString s => s
  | JsNull | JsUndefined => ""
  end.

(** The names of the members of Object.prototype. *)
Definition prototypeMembers : list string :=
  ["__proto__"; "__defineGetter__"; "__defineSetter__"; "__lookupGetter__";
   "__lookupSetter__"; "constructor"; "hasOwnProperty"; "isPrototypeOf";
   "propertyIsEnumerable"; "toLocaleString"; "toString"; "valueOf"].

Definition isPrototypeMember (key : string) : bool :=
  bool_decide (key ∈ prototypeMembers).

(** * src/lib/cache.ts *)

Module Cache.

(** interface CachedSummary, as an entry is read back from storage. *)
Record CachedSummary := mkCachedSummary {
  summary : string;
  timestamp : Z;
  docId : string;
  scope : string;
  expiresAt : JsonNumber;
  userId : option string;
  chunkCount : Z
}.

(** The content of localStorage under CACHE_KEY. *)
Inductive Storage :=
| NoItem                                   (* getItem returns null *)
| Item (cache : gmap string CachedSummary) (* JSON text of a cache object *)
| Unparseable.                             (* JSON.parse throws *)

Definition DEFAULT_TTL : Z := 24 * 60 * 60 * 1000.

(** getCache: a missing item and a parse failure both give the empty object.
    The map holds the own properties of the object. *)
Definition getCache (st : Storage) : gmap string CachedSummary :=
  match st with
  | Item cache => cache
  | NoItem | Unparseable => ∅
  end.

Definition saveCache (cache : gmap string CachedSummary) (st : Storage) : Storage :=
  Item cache.

(** What reading [cache[key]] finds. *)
Inductive Property :=
| Own (cachedItem : CachedSummary)   (* an entry of the cache *)
| Inherited                          (* a member of Object.prototype *)
| Absent.                            (* undefined *)

Definition property (cache : gmap string CachedSummary) (key : string)
    : Property :=
  match cache !! key with
  | Some cachedItem => Own cachedItem
  | None => if isPrototypeMember key then Inherited else Absent
  end.

(** The own properties after the assignment [cache[key] = cachedItem]: on an
    object without own property [__proto__] that key names the prototype
    setter, and no property is created. *)
Definition assign (key : string) (cachedItem : CachedSummary)
    (cache : gmap string CachedSummary) : gmap string CachedSummary :=
  match cache !! key with
  | Some _ => <[key := cachedItem]> cache
  | None =>
      if bool_decide (key = "__proto__") then cache
      else <[key := cachedItem]> cache
  end.

(** generateCacheKey: [`${docId}_${scope}${userIdPart}`]. *)
Definition generateCacheKey (docId scope : string) (userId : option string) : string :=
  let userIdPart :=
    match userId with
    | Some u => if truthy userId then "_" +:+ u else ""
    | None => ""
    end in
  docId +:+ "_" +:+ scope +:+ userIdPart.

(** isExpired: [Date.now() > cachedItem.expiresAt]. *)
Definition isExpired (now : Z) (cachedItem : CachedSummary) : bool :=
  toNumber (expiresAt cachedItem) <? now.

(** cleanExpiredEntries: delete every expired key; write back only when
    something was deleted. *)
Definition cleanExpiredEntries (now : Z) (st : Storage) : Storage :=
  let cache := getCache st in
  let kept := filter (λ kv, isExpired now kv.2 = false) cache in
  let hasExpiredEntries :=
    existsb (λ kv, isExpired now kv.2) (map_to_list cache) in
  if hasExpiredEntries then saveCache kept st else st.

(** removeSummary: [if (cache[cacheKey])] is true for an entry and for an
    inherited member; [delete] removes an own property only. *)
Definition removeSummary (docId scope : string) (userId : option string)
    (st : Storage) : Storage :=
  let cache := getCache st in
  let cacheKey := generateCacheKey docId scope userId in
  match property cache cacheKey with
  | Own _ | Inherited => saveCache (delete cacheKey cache) st
  | Absent => st
  end.

(** getSummary returns the value handed to the caller and the storage the
    call leaves behind.  An inherited member is an object without the fields
    of an entry: [Date.now() > undefined] is false, [undefined !== userId]
    and [undefined !== currentChunkCount] are true, and its [summary] is
    [undefined]. *)
Definition getSummary (docId scope : string) (userId : option string)
    (currentChunkCount : option Z) (now : Z) (st : Storage)
    : JsValue * Storage :=
  let st1 := cleanExpiredEntries now st in
  let cache := getCache st1 in
  let cacheKey := generateCacheKey docId scope userId in
  match property cache cacheKey with
  | Absent => (JsNull, st1)
  | Own cachedItem =>
      if isExpired now cachedItem then (JsNull, st1)
      else if truthy userId && negb (bool_decide (Cache.userId cachedItem = userId))
      then (JsNull, st1)
      else
        match currentChunkCount with
        | Some c =>
            if negb (chunkCount cachedItem =? c)
            then (JsNull, removeSummary docId scope userId st1)
            else (JsString (summary cachedItem), st1)
        | None => (JsString (summary cachedItem), st1)
        end
  | Inherited =>
      if truthy userId then (JsNull, st1)
      else
        match currentChunkCount with
        | Some _ => (JsNull, removeSummary docId scope userId st1)
        | None => (JsUndefined, st1)
        end
  end.

(** setSummary: [ttl || DEFAULT_TTL] (0 and NaN are falsy) and
    [chunkCount || 0]. *)
Definition setSummary (docId summary scope : string) (userId : option string)
    (ttl : option JsNumber) (chunkCount : option Z) (now : Z) (st : Storage)
    : Storage :=
  let cache := getCache st in
  let cacheKey := generateCacheKey docId scope userId in
  let expirationTime :=
    match ttl with
    | Some (Finite t) => if t =? 0 then Finite DEFAULT_TTL else Finite t
    | Some NaN => Finite DEFAULT_TTL
    | Some t => t
    | None => Finite DEFAULT_TTL
    end in
  saveCache
    (assign cacheKey {| summary := summary;
                        timestamp := now;
                        docId := docId;
                        scope := scope;
                        expiresAt := addToNow now expirationTime;
                        userId := userId;
                        chunkCount := default 0 chunkCount |} cache)
    st.

(** removeAllSummariesForDocument *)
Definition removeAllSummariesForDocument (docId : string) (userId : option string)
    (st : Storage) : Storage :=
  let cache := getCache st in
  let hit (item : CachedSummary) : bool :=
    bool_decide (Cache.docId item = docId)
    && (negb (truthy userId) || bool_decide (Cache.userId item = userId)) in
  let hasChanges := existsb (λ kv, hit kv.2) (map_to_list cache) in
  if hasChanges
  then saveCache (filter (λ kv, hit kv.2 = false) cache) st
  else st.

(** clearAllCache: [localStorage.removeItem]. *)
Definition clearAllCache (st : Storage) : Storage := NoItem.

(** clearUserCache *)
Definition clearUserCache (userId : string) (st : Storage) : Storage :=
  let cache := getCache st in
  let hit (item : CachedSummary) : bool :=
    bool_decide (Cache.userId item = Some userId) in
  let hasChanges := existsb (λ kv, hit kv.2) (map_to_list cache) in
  if hasChanges
  then saveCache (filter (λ kv, hit kv.2 = false) cache) st
  else st.

(** The counters of getCacheStats.  Its fifth field, cacheSize, renders the
    length of the stored text and is not part of the embedding. *)
Record CacheStats := mkCacheStats {
  totalEntries : nat;
  expiredEntries : nat;
  userEntries : nat;
  validEntries : nat
}.

Definition getCacheStats (userId : option string) (now : Z) (st : Storage)
    : CacheStats :=
  let cache := getCache st in
  let entries :=
    if truthy userId
    then List.filter (λ entry, bool_decide (Cache.userId entry = userId))
                     (map_to_list cache).*2
    else (map_to_list cache).*2 in
  {| totalEntries := length (map_to_list cache).*2;
     userEntries := length entries;
     expiredEntries := length (List.filter (isExpired now) entries);
     validEntries := length (List.filter (λ entry, negb (isExpired now entry)) entries) |}.

(** isCached: [getSummary(..) !== null]. *)
Definition isCached (docId scope : string) (userId : option string)
    (currentChunkCount : option Z) (now : Z) (st : Storage) : bool * Storage :=
  let '(r, st') := getSummary docId scope userId currentChunkCount now st in
  (bool_decide (r ≠ JsNull), st').

End Cache.

(** * src/hooks/use-api.ts: useSummarize *)

Module UseApi.

(** interface SummarizeRequest (src/lib/types.ts) *)
Record SummarizeRequest := mkSummarizeRequest {
  doc_id : string;
  scope : string;
  chapter_hint : option string
}.

(** The remote calls a run of mutationFn makes, in order. *)
Inductive ApiCall :=
| GetDocument (docId : string)            (* documentsAPI.getDocument *)
| Summarize (data : SummarizeRequest).    (* ragAPI.summarize *)

(** The object mutationFn resolves to. *)
Record SummarizeResult := mkSummarizeResult {
  summary : string;
  fromCache : bool;
  chunkCount : Z;
  action : string
}.

Section useSummarize.

(** What [JSON.parse(atob(token.split('.')[1])).sub] evaluates to; [None]
    when there is no token or the token cannot be decoded. *)
Variable userId : option string.

(** The answer of the backend to getDocument, reduced to the field that is
    read, chunk_count; [None] when the request is rejected. *)
Variable getDocument : string → option Z.

(** The answer of the backend to summarize: [response.summary], or [None]
    when the request is rejected. *)
Variable summarize : SummarizeRequest → option string.

(** mutationFn.  [now] is the time of the cache read and [now'] the time of
    the cache write, after the summarize request has resolved.  A rejected
    request rejects the mutation (first component [None]). *)
Definition mutationFn (data : SummarizeRequest) (now now' : Z)
    (st : Cache.Storage)
    : option SummarizeResult * Cache.Storage * list ApiCall :=
  match getDocument (doc_id data) with
  | None => (None, st, [GetDocument (doc_id data)])
  | Some currentChunkCount =>
      let scope' :=
        if truthy (Some (scope data)) then scope data else "full" in
      let '(cachedSummary, st1) :=
        Cache.getSummary (doc_id data) scope' userId
                         (Some currentChunkCount) now st in
      if truthyValue cachedSummary
      then (Some {| summary := stringOf cachedSummary;
                    fromCache := true;
                    chunkCount := currentChunkCount;
                    action := "loaded_from_cache" |},
            st1, [GetDocument (doc_id data)])
      else
        match summarize data with
        | None => (None, st1, [GetDocument (doc_id data); Summarize data])
        | Some response_summary =>
            (Some {| summary := response_summary;
                     fromCache := false;
                     chunkCount := currentChunkCount;
                     action := "generated_new" |},
             Cache.setSummary (doc_id data) response_summary scope' userId
                              None (Some currentChunkCount) now' st1,
             [GetDocument (doc_id data); Summarize data])
        end
  end.

End useSummarize.

End UseApi.

(** * The status poller *)

(** getBackoffDelay, the same function in PdfUploader.tsx and [docId].tsx.
    An index outside the table would read [undefined]; [Math.min] keeps the
    index inside it, and the default 0 below is never returned. *)
Definition delays : list Z := [1000; 2000; 4000; 8000; 10000].

Definition getBackoffDelay (attempt : nat) : Z :=
  nth (Nat.min attempt (length delays - 1)%nat) delays 0.

(** interface Document, as both files declare it, reduced to the fields the
    pollers read. *)
Inductive DocumentStatus := DocUploading | DocProcessing | DocProcessed | DocError.

Record Document := mkDocument {
  doc_status : DocumentStatus;
  chunk_count : Z
}.

Global Instance DocumentStatus_eq_dec : EqDecision DocumentStatus.
Proof. solve_decision. Defined.

Global Instance Document_eq_dec : EqDecision Document.
Proof. solve_decision. Defined.

(** How an awaited status request settles. *)
Inductive Response :=
| Resolved (doc : Document)
| Rejected.

(** A pending [setTimeout] callback [() => pollDocumentStatus(.., attempt)]. *)
Record Timer := mkTimer {
  timerId : nat;
  timerDelay : Z;
  timerDocId : string;
  timerAttempt : nat
}.

(** A status request that has been sent and not yet settled, with the
    arguments of the call of pollDocumentStatus that awaits it. *)
Record Request := mkRequest {
  reqDocId : string;
  reqAttempt : nat
}.

(** clearTimeout *)
Definition clearTimeout (id : nat) (timers : list Timer) : list Timer :=
  List.filter (λ t, negb (timerId t =? id)%nat) timers.

(** ** src/components/PdfUploader.tsx *)

Module PdfUploader.

(** The component state [status]. *)
Inductive Status := Idle | Uploading | Processing | Processed | Error.

(** What the component shows or reports to its parent. *)
Inductive Effect :=
| ToastSuccess (message : string)
| ToastError (message : string)
| OnCreated (docId : string)
| OnProcessed (doc : Document).

(** The state the poller reads and writes: the React state variables
    [status], [docId], [document], [pollAttempt], the ref [pollTimeoutRef],
    and the environment of the event loop (armed timers, unsettled status
    requests).  [statusCalls] counts the status requests sent and [effects]
    records toasts and callbacks in order. *)
Record State := mkState {
  status : Status;
  docId : option string;
  document : option Document;
  pollAttempt : nat;
  pollTimeoutRef : option nat;
  timers : list Timer;
  nextTimerId : nat;
  requests : list Request;
  statusCalls : nat;
  effects : list Effect
}.

Definition init : State :=
  {| status := Idle; docId := None; document := None; pollAttempt := 0;
     pollTimeoutRef := None; timers := []; nextTimerId := 1; requests := [];
     statusCalls := 0; effects := [] |}.

Definition setStatus (v : Status) (st : State) : State :=
  mkState v (docId st) (document st) (pollAttempt st) (pollTimeoutRef st)
          (timers st) (nextTimerId st) (requests st) (statusCalls st) (effects st).

Definition setDocId (v : option string) (st : State) : State :=
  mkState (status st) v (document st) (pollAttempt st) (pollTimeoutRef st)
          (timers st) (nextTimerId st) (requests st) (statusCalls st) (effects st).

Definition setDocument (v : option Document) (st : State) : State :=
  mkState (status st) (docId st) v (pollAttempt st) (pollTimeoutRef st)
          (timers st) (nextTimerId st) (requests st) (statusCalls st) (effects st).

Definition setPollAttempt (v : nat) (st : State) : State :=
  mkState (status st) (docId st) (document st) v (pollTimeoutRef st)
          (timers st) (nextTimerId st) (requests st) (statusCalls st) (effects st).

Definition setTimers (v : list Timer) (st : State) : State :=
  mkState (status st) (docId st) (document st) (pollAttempt st) (pollTimeoutRef st)
          v (nextTimerId st) (requests st) (statusCalls st) (effects st).

Definition setRequests (v : list Request) (st : State) : State :=
  mkState (status st) (docId st) (document st) (pollAttempt st) (pollTimeoutRef st)
          (timers st) (nextTimerId st) v (statusCalls st) (effects st).

Definition emit (e : Effect) (st : State) : State :=
  mkState (status st) (docId st) (document st) (pollAttempt st) (pollTimeoutRef st)
          (timers st) (nextTimerId st) (requests st) (statusCalls st)
          (effects st ++ [e]).

(** [pollTimeoutRef.current = setTimeout(() => pollDocumentStatus(docId,
    attempt), delay)]: a fresh timer is armed and its id overwrites the ref. *)
Definition setTimeout (delay : Z) (docId : string) (attempt : nat) (st : State)
    : State :=
  mkState (status st) (PdfUploader.docId st) (document st) (pollAttempt st)
          (Some (nextTimerId st))
          (timers st ++ [mkTimer (nextTimerId st) delay docId attempt])
          (S (nextTimerId st)) (requests st) (statusCalls st) (effects st).

(** pollDocumentStatus up to its [await]: the status request is sent. *)
Definition pollDocumentStatus (docId : string) (attempt : nat) (st : State)
    : State :=
  mkState (status st) (PdfUploader.docId st) (document st) (pollAttempt st)
          (pollTimeoutRef st) (timers st) (nextTimerId st)
          (requests st ++ [mkRequest docId attempt]) (S (statusCalls st))
          (effects st).

(** "Continue polling with exponential backoff". *)
Definition continuePolling (docId : string) (attempt : nat) (st : State) : State :=
  let delay := getBackoffDelay attempt in
  setTimeout delay docId (attempt + 1) (setPollAttempt (attempt + 1) st).

(** pollDocumentStatus after its [await]: the try block when the request
    resolved, the catch block when it was rejected. *)
Definition pollDocumentStatus_settled (req : Request) (resp : Response)
    (st : State) : State :=
  let docId := reqDocId req in
  let attempt := reqAttempt req in
  match resp with
  | Resolved doc =>
      let st := setDocument (Some doc) st in
      if bool_decide (doc_status doc = DocProcessed) || (0 <? chunk_count doc)
      then emit (OnProcessed doc)
             (emit (ToastSuccess "Document processed successfully!")
                (setStatus Processed st))
      else if bool_decide (doc_status doc = DocError)
      then emit (ToastError "Document processing failed") (setStatus Error st)
      else continuePolling docId attempt st
  | Rejected =>
      if (attempt <? 10)%nat
      then continuePolling docId attempt st
      else emit (ToastError "Failed to check document status")
             (setStatus Error st)
  end.

(** handleCancel.  Its [abortControllerRef.current.abort()] aborts the upload
    request only: handleUpload passes the signal to [axios.post], and the
    [axios.get] of pollDocumentStatus takes no signal. *)
Definition handleCancel (st : State) : State :=
  let st :=
    match pollTimeoutRef st with
    | Some id => setTimers (clearTimeout id (timers st)) st
    | None => st
    end in
  setPollAttempt 0 (setDocument None (setDocId None (setStatus Idle st))).

(** What can happen to the component. *)
Inductive Event :=
| UploadResolved (doc_id : string)        (* handleUpload: the upload resolved *)
| TimerFires (id : nat)                   (* an armed timer runs its callback *)
| RequestSettles (i : nat) (resp : Response) (* the i-th unsettled request *)
| Cancel.                                 (* the user cancels *)

Definition step (ev : Event) (st : State) : State :=
  match ev with
  | UploadResolved doc_id =>
      pollDocumentStatus doc_id 0
        (setPollAttempt 0
           (emit (OnCreated doc_id)
              (emit (ToastSuccess "Upload complete! Processing document...")
                 (setStatus Processing (setDocId (Some doc_id) st)))))
  | TimerFires id =>
      match List.find (λ t, (timerId t =? id)%nat) (timers st) with
      | Some t =>
          pollDocumentStatus (timerDocId t) (timerAttempt t)
            (setTimers (clearTimeout id (timers st)) st)
      | None => st
      end
  | RequestSettles i resp =>
      match requests st !! i with
      | Some req =>
          pollDocumentStatus_settled req resp
            (setRequests (delete i (requests st)) st)
      | None => st
      end
  | Cancel => handleCancel st
  end.

Definition steps (evs : list Event) (st : State) : State :=
  foldl (λ s ev, step ev s) st evs.

(** One poll left alone: the request in flight is answered by [source] at
    its attempt index, then the armed timer fires, and so on until nothing
    is pending or the fuel is spent.  The clock advances by the delay of
    each timer that fires (requests take no time), so it is a lower bound
    of the time since the poll started. *)
Fixpoint run (source : nat → Response) (fuel : nat) (clock : Z) (st : State)
    : Z * State :=
  match fuel with
  | O => (clock, st)
  | S fuel' =>
      match requests st, timers st with
      | req :: _, _ =>
          run source fuel' clock
              (step (RequestSettles 0 (source (reqAttempt req))) st)
      | [], t :: _ =>
          run source fuel' (clock + timerDelay t) (step (TimerFires (timerId t)) st)
      | [], [] => (clock, st)
      end
  end.

(** The poll handleUpload starts for [doc_id] in a fresh component. *)
Definition start (doc_id : string) : State := step (UploadResolved doc_id) init.

(** The events that complete something the poller waits for. *)
Definition isCompletion (ev : Event) : bool :=
  match ev with
  | TimerFires _ | RequestSettles _ _ => true
  | UploadResolved _ | Cancel => false
  end.

(** The transition to ready: [setStatus('processed')], the success toast and
    the onProcessed callback; no timer is armed and no request is sent. *)
Definition becomesReady (doc : Document) (st st' : State) : Prop :=
  status st' = Processed ∧
  effects st' = effects st ++ [ToastSuccess "Document processed successfully!";
                               OnProcessed doc] ∧
  timers st' = timers st ∧
  statusCalls st' = statusCalls st.

(** The transition to failed: [setStatus('error')] and an error toast; no
    timer is armed and no request is sent. *)
Definition becomesFailed (st st' : State) : Prop :=
  status st' = Error ∧
  (∃ message, effects st' = effects st ++ [ToastError message]) ∧
  timers st' = timers st ∧
  statusCalls st' = statusCalls st.

End PdfUploader.

(** ** src/pages/doc/[docId].tsx *)

Module DocumentPage.

Inductive Effect :=
| ToastSuccess (message : string)
| ToastError (message : string).

(** The state the poller reads and writes: the React state variables
    [document] and [pollAttempt], the ref [pollTimeoutRef], and the
    environment of the event loop.  The page polls the document of its prop
    [docId]; requests and timers carry it in [reqDocId] and [timerDocId]. *)
Record State := mkState {
  document : option Document;
  pollAttempt : nat;
  pollTimeoutRef : option nat;
  timers : list Timer;
  nextTimerId : nat;
  requests : list Request;
  statusCalls : nat;
  effects : list Effect
}.

Definition init : State :=
  {| document := None; pollAttempt := 0; pollTimeoutRef := None; timers := [];
     nextTimerId := 1; requests := []; statusCalls := 0; effects := [] |}.

Definition setDocument (v : option Document) (st : State) : State :=
  mkState v (pollAttempt st) (pollTimeoutRef st) (timers st) (nextTimerId st)
          (requests st) (statusCalls st) (effects st).

Definition setPollAttempt (v : nat) (st : State) : State :=
  mkState (document st) v (pollTimeoutRef st) (timers st) (nextTimerId st)
          (requests st) (statusCalls st) (effects st).

Definition setTimers (v : list Timer) (st : State) : State :=
  mkState (document st) (pollAttempt st) (pollTimeoutRef st) v (nextTimerId st)
          (requests st) (statusCalls st) (effects st).

Definition setRequests (v : list Request) (st : State) : State :=
  mkState (document st) (pollAttempt st) (pollTimeoutRef st) (timers st)
          (nextTimerId st) v (statusCalls st) (effects st).

Definition emit (e : Effect) (st : State) : State :=
  mkState (document st) (pollAttempt st) (pollTimeoutRef st) (timers st)
          (nextTimerId st) (requests st) (statusCalls st) (effects st ++ [e]).

Definition setTimeout (delay : Z) (docId : string) (attempt : nat) (st : State)
    : State :=
  mkState (document st) (pollAttempt st) (Some (nextTimerId st))
          (timers st ++ [mkTimer (nextTimerId st) delay docId attempt])
          (S (nextTimerId st)) (requests st) (statusCalls st) (effects st).

(** fetchDocument after its [await]: the document is stored and returned, or
    the error is reported and thrown again. *)
Definition fetchDocument_settled (resp : Response) (st : State)
    : option Document * State :=
  match resp with
  | Resolved doc => (Some doc, setDocument (Some doc) st)
  | Rejected => (None, emit (ToastError "Failed to load document") st)
  end.

(** pollDocumentStatus up to the [await] inside fetchDocument. *)
Definition pollDocumentStatus (docId : string) (attempt : nat) (st : State)
    : State :=
  mkState (document st) (pollAttempt st) (pollTimeoutRef st) (timers st)
          (nextTimerId st) (requests st ++ [mkRequest docId attempt])
          (S (statusCalls st)) (effects st).

Definition continuePolling (docId : string) (attempt : nat) (st : State) : State :=
  let delay := getBackoffDelay attempt in
  setTimeout delay docId (attempt + 1) (setPollAttempt (attempt + 1) st).

(** pollDocumentStatus after the [await]. *)
Definition pollDocumentStatus_settled (req : Request) (resp : Response)
    (st : State) : State :=
  let docId := reqDocId req in
  let attempt := reqAttempt req in
  match fetchDocument_settled resp st with
  | (Some doc, st) =>
      if bool_decide (doc_status doc = DocProcessed) || (0 <? chunk_count doc)
      then emit (ToastSuccess "Document processing complete!") st
      else if bool_decide (doc_status doc = DocError)
      then emit (ToastError "Document processing failed") st
      else continuePolling docId attempt st
  | (None, st) =>
      if (attempt <? 10)%nat
      then continuePolling docId attempt st
      else emit (ToastError "Failed to check document status") st
  end.

(** loadDocument after its [await]: polling starts when the document is not
    processed, not in error and has no chunks. *)
Definition loadDocument_settled (docId : string) (resp : Response) (st : State)
    : State :=
  match fetchDocument_settled resp st with
  | (Some doc, st) =>
      if negb (bool_decide (doc_status doc = DocProcessed))
         && negb (bool_decide (doc_status doc = DocError))
         && (chunk_count doc =? 0)
      then pollDocumentStatus docId 0 st
      else st
  | (None, st) => st
  end.

(** The cleanup of the effect ("Cleanup polling on unmount"). *)
Definition cleanup (st : State) : State :=
  match pollTimeoutRef st with
  | Some id => setTimers (clearTimeout id (timers st)) st
  | None => st
  end.

Inductive Event :=
| Loaded (docId : string) (resp : Response) (* the fetch of loadDocument settles *)
| TimerFires (id : nat)
| RequestSettles (i : nat) (resp : Response)
| Cleanup.

Definition step (ev : Event) (st : State) : State :=
  match ev with
  | Loaded docId resp => loadDocument_settled docId resp st
  | TimerFires id =>
      match List.find (λ t, (timerId t =? id)%nat) (timers st) with
      | Some t =>
          pollDocumentStatus (timerDocId t) (timerAttempt t)
            (setTimers (clearTimeout id (timers st)) st)
      | None => st
      end
  | RequestSettles i resp =>
      match requests st !! i with
      | Some req =>
          pollDocumentStatus_settled req resp
            (setRequests (delete i (requests st)) st)
      | None => st
      end
  | Cleanup => cleanup st
  end.

Definition steps (evs : list Event) (st : State) : State :=
  foldl (λ s ev, step ev s) st evs.

Fixpoint run (source : nat → Response) (fuel : nat) (clock : Z) (st : State)
    : Z * State :=
  match fuel with
  | O => (clock, st)
  | S fuel' =>
      match requests st, timers st with
      | req :: _, _ =>
          run source fuel' clock
              (step (RequestSettles 0 (source (reqAttempt req))) st)
      | [], t :: _ =>
          run source fuel' (clock + timerDelay t) (step (TimerFires (timerId t)) st)
      | [], [] => (clock, st)
      end
  end.

(** The poll the page starts with [pollDocumentStatus(0)]. *)
Definition start (docId : string) : State := pollDocumentStatus docId 0 init.

(** The events that complete something the poller waits for. *)
Definition isCompletion (ev : Event) : bool :=
  match ev with
  | TimerFires _ | RequestSettles _ _ => true
  | Loaded _ _ | Cleanup => false
  end.

(** The transition to ready: the success toast; no timer is armed and no
    request is sent. *)
Definition becomesReady (st st' : State) : Prop :=
  effects st' = effects st ++ [ToastSuccess "Document processing complete!"] ∧
  timers st' = timers st ∧
  statusCalls st' = statusCalls st.

(** The transition to failed after a rejected request: the error toast of
    fetchDocument and the one of pollDocumentStatus; no timer is armed and no
    request is sent. *)
Definition becomesFailed (st st' : State) : Prop :=
  effects st' = effects st ++ [ToastError "Failed to load document";
                               ToastError "Failed to check document status"] ∧
  timers st' = timers st ∧
  statusCalls st' = statusCalls st.

End DocumentPage.

(** The document states of the probes used below. *)
Definition pendingDoc : Document := mkDocument DocProcessing 0.
Definition allPending (attempt : nat) : Response := Resolved pendingDoc.
Definition allRejected (attempt : nat) : Response := Rejected.

(** What getSummary hands to its caller, as a function of what the cache
    holds under the requested key before the sweep: an entry that is not
    expired is examined; otherwise the read finds an inherited member or
    nothing. *)
Definition answer (userId : option string) (currentChunkCount : option Z)
    (now : Z) (key : string) (found : option Cache.CachedSummary) : JsValue :=
  let unstored :=
    if isPrototypeMember key
    then if truthy userId then JsNull
         else match currentChunkCount with
              | Some _ => JsNull
              | None => JsUndefined
              end
    else JsNull in
  match found with
  | None => unstored
  | Some cachedItem =>
      if Cache.isExpired now cachedItem then unstored
      else if truthy userId
              && negb (bool_decide (Cache.userId cachedItem = userId))
      then JsNull
      else
        match currentChunkCount with
        | Some c =>
            if negb (Cache.chunkCount cachedItem =? c) then JsNull
            else JsString (Cache.summary cachedItem)
        | None => JsString (Cache.summary cachedItem)
        end
  end.

(** An entry that getSummary serves to a caller with owner [userId] and
    current chunk count [c] at time [now]: not expired, of that owner when
    the caller has one, and of that chunk count. *)
Definition servable (userId : option string) (c : Z) (now : Z)
    (e : Cache.CachedSummary) : bool :=
  negb (Cache.isExpired now e)
  && (negb (truthy userId) || bool_decide (Cache.userId e = userId))
  && (Cache.chunkCount e =? c).

(** * Further code of the same files *)

(** ** src/hooks/use-api.ts: useCachedSummary, useIsSummaryCached,
       useDeleteDocument *)

Module UseApiQueries.

(** The object the queryFn of useCachedSummary resolves to when the cache
    answers. *)
Record CachedSummaryData := mkCachedSummaryData {
  summary : string;
  fromCache : bool;
  chunkCount : Z
}.

Section queries.

(** As in useSummarize: the decoded [payload.sub] and the answer of the
    backend to getDocument, reduced to chunk_count. *)
Variable userId : option string.
Variable getDocument : string → option Z.

(** queryFn of useCachedSummary.  The outer [None] is a rejected query, the
    inner [None] the value [null]. *)
Definition useCachedSummary_queryFn (docId scope : string) (now : Z)
    (st : Cache.Storage) : option (option CachedSummaryData) * Cache.Storage :=
  match getDocument docId with
  | None => (None, st)
  | Some currentChunkCount =>
      let '(cachedSummary, st1) :=
        Cache.getSummary docId scope userId (Some currentChunkCount) now st in
      (Some (if truthyValue cachedSummary
             then Some {| summary := stringOf cachedSummary;
                          fromCache := true;
                          chunkCount := currentChunkCount |}
             else None),
       st1)
  end.

(** queryFn of useIsSummaryCached. *)
Definition useIsSummaryCached_queryFn (docId scope : string) (now : Z)
    (st : Cache.Storage) : option bool * Cache.Storage :=
  match getDocument docId with
  | None => (None, st)
  | Some currentChunkCount =>
      let '(cached, st1) :=
        Cache.isCached docId scope userId (Some currentChunkCount) now st in
      (Some cached, st1)
  end.

End queries.

(** onSuccess of useDeleteDocument, the part that touches the summary cache:
    [summaryCache.removeAllSummariesForDocument(docId.toString())]. *)
Definition useDeleteDocument_onSuccess (docId : string) (st : Cache.Storage)
    : Cache.Storage :=
  Cache.removeAllSummariesForDocument docId None st.

End UseApiQueries.

(** ** CacheManager (src/unnamed/part_000): handleClearCache *)

Module CacheManager.

(** handleClearCache, the cache call it makes.  [userId] is the decoded
    [payload.sub]; without a token, with an undecodable token or with a falsy
    [sub] the whole cache is cleared. *)
Definition handleClearCache (userId : option string) (st : Cache.Storage)
    : Cache.Storage :=
  match userId with
  | Some u => if truthy userId then Cache.clearUserCache u st
              else Cache.clearAllCache st
  | None => Cache.clearAllCache st
  end.

End CacheManager.

(** ** Notions used by the properties below *)

(** Every key is the key generateCacheKey gives to the fields of its entry. *)
Definition wellKeyed (cache : gmap string Cache.CachedSummary) : Prop :=
  ∀ k e, cache !! k = Some e →
         k = Cache.generateCacheKey (Cache.docId e) (Cache.scope e)
                                    (Cache.userId e).

(** What [ttl || DEFAULT_TTL] evaluates to. *)
Definition effectiveTtl (ttl : option JsNumber) : JsNumber :=
  match ttl with
  | Some (Finite t) => if t =? 0 then Finite Cache.DEFAULT_TTL else Finite t
  | Some NaN => Finite Cache.DEFAULT_TTL
  | Some t => t
  | None => Finite Cache.DEFAULT_TTL
  end.

(** The entry a call of setSummary builds. *)
Definition entryOf (docId summary scope : string) (userId : option string)
    (ttl : option JsNumber) (chunkCount : option Z) (now : Z)
    : Cache.CachedSummary :=
  Cache.mkCachedSummary summary now docId scope
                        (addToNow now (effectiveTtl ttl)) userId
                        (default 0 chunkCount).

(** A key under which the assignment of setSummary creates or replaces an
    entry: every key but [__proto__] on a cache that has no own property of
    that name. *)
Definition storesAt (key : string) (cache : gmap string Cache.CachedSummary)
    : Prop :=
  key ≠ "__proto__" ∨ is_Some (cache !! key).

(** [data.scope || 'full'], the scope useSummarize reads and writes. *)
Definition scopeOf (data : UseApi.SummarizeRequest) : string :=
  if truthy (Some (UseApi.scope data)) then UseApi.scope data else "full".

(** A status source that reports a pending document for the attempts below
    [k] and answers [final] from attempt [k] on. *)
Definition pendingThen (k : nat) (final : Response) (attempt : nat) : Response :=
  if (attempt <? k)%nat then Resolved pendingDoc else final.

(** The sum of the backoff delays of attempts [a], ..., [a + k - 1]. *)
Fixpoint sumDelays (a k : nat) : Z :=
  match k with
  | O => 0
  | S k' => getBackoffDelay a + sumDelays (S a) k'
  end.

(** * Properties of the cache *)

Section CacheFacts.
Import Cache.

Lemma append_inj_l (p a b : string) : p +:+ a = p +:+ b → a = b.
Proof.
  induction p as [|c p IH]; simpl; [done|].
  intros H. injection H as H. by apply IH.
Qed.

Lemma userIdPart_inj (a b : string) :
  a ≠ b →
  (if truthy (Some a) then "_" +:+ a else "")
  ≠ (if truthy (Some b) then "_" +:+ b else "").
Proof.
  intros Hab. destruct a as [|ca a], b as [|cb b]; simpl; try done.
  intros H. injection H as -> ->. done.
Qed.

(** Two different owners never share a key for the same document and scope. *)
Lemma generateCacheKey_owner_ne (docId scope ownerA ownerB : string) :
  ownerA ≠ ownerB →
  generateCacheKey docId scope (Some ownerA)
  ≠ generateCacheKey docId scope (Some ownerB).
Proof.
  intros Hab H. unfold generateCacheKey in H.
  do 3 apply append_inj_l in H.
  by apply (userIdPart_inj _ _ Hab).
Qed.

Lemma existsb_isExpired_false (now : Z) (cache : gmap string CachedSummary) :
  existsb (λ kv, isExpired now kv.2) (map_to_list cache) = false →
  filter (λ kv, isExpired now kv.2 = false) cache = cache.
Proof.
  intros H. apply map_filter_id. intros k e Hk. simpl.
  destruct (isExpired now e) eqn:He; [|done].
  assert (existsb (λ kv, isExpired now kv.2) (map_to_list cache) = true) as Ht.
  { apply existsb_exists. exists (k, e). split; [|done].
    apply list_elem_of_In. by apply elem_of_map_to_list. }
  congruence.
Qed.

(** The sweep leaves exactly the entries that are not expired. *)
Lemma getCache_cleanExpiredEntries (now : Z) (st : Storage) :
  getCache (cleanExpiredEntries now st)
  = filter (λ kv, isExpired now kv.2 = false) (getCache st).
Proof.
  unfold cleanExpiredEntries.
  destruct (existsb _ _) eqn:He; simpl; [done|].
  by rewrite existsb_isExpired_false.
Qed.

Lemma lookup_swept (now : Z) (cache : gmap string CachedSummary) (k : string) :
  filter (λ kv, isExpired now kv.2 = false) cache !! k
  = match cache !! k with
    | Some e => if isExpired now e then None else Some e
    | None => None
    end.
Proof.
  destruct (cache !! k) as [e|] eqn:Hk.
  - destruct (isExpired now e) eqn:He.
    + apply map_lookup_filter_None. right. intros x Hx. simpl. congruence.
    + apply map_lookup_filter_Some. by split.
  - apply map_lookup_filter_None. by left.
Qed.

Lemma getSummary_answer docId scope userId currentChunkCount now st :
  (getSummary docId scope userId currentChunkCount now st).1
  = answer userId currentChunkCount now
      (generateCacheKey docId scope userId)
      (getCache st !! generateCacheKey docId scope userId).
Proof.
  unfold getSummary, property, answer.
  rewrite getCache_cleanExpiredEntries, lookup_swept.
  set (key := generateCacheKey docId scope userId).
  destruct (getCache st !! key) as [e|];
    [destruct (isExpired now e) eqn:He|]; simpl; rewrite ?He;
    try (destruct (isPrototypeMember key);
         [destruct (truthy userId); [done|by destruct currentChunkCount]
         |done]).
  destruct (truthy userId && _); [done|].
  destruct currentChunkCount as [c|]; [|done].
  by destruct (negb _).
Qed.

Lemma answer_swept userId ask now key (cache : gmap string CachedSummary) :
  answer userId ask now key
         (filter (λ kv, isExpired now kv.2 = false) cache !! key)
  = answer userId ask now key (cache !! key).
Proof.
  rewrite lookup_swept. destruct (cache !! key) as [e|]; [|done].
  destruct (isExpired now e) eqn:He; [|done].
  unfold answer. by rewrite He.
Qed.

Lemma getCache_removeSummary docId scope userId st :
  getCache (removeSummary docId scope userId st)
  = delete (generateCacheKey docId scope userId) (getCache st).
Proof.
  unfold removeSummary, property.
  destruct (getCache st !! _) eqn:Hk; [done|].
  destruct (isPrototypeMember _); [done|]. by rewrite delete_id.
Qed.

(** The cache getSummary leaves behind: the swept cache, with the requested
    key deleted when the chunk counts disagree. *)
Lemma getCache_getSummary docId scope userId currentChunkCount now st :
  let key := generateCacheKey docId scope userId in
  let swept := filter (λ kv, isExpired now kv.2 = false) (getCache st) in
  getCache (getSummary docId scope userId currentChunkCount now st).2
  = match swept !! key, currentChunkCount with
    | Some e, Some c =>
        if negb (truthy userId && negb (bool_decide (Cache.userId e = userId)))
           && negb (chunkCount e =? c)
        then delete key swept else swept
    | _, _ => swept
    end.
Proof.
  intros key swept. unfold getSummary, property. fold key.
  rewrite getCache_cleanExpiredEntries. fold swept.
  destruct (swept !! key) as [e|] eqn:Hk.
  - assert (isExpired now e = false) as ->
      by by apply map_lookup_filter_Some in Hk as [_ ?].
    destruct (truthy userId && _); simpl.
    { destruct currentChunkCount; apply getCache_cleanExpiredEntries. }
    destruct currentChunkCount as [c|];
      [|apply getCache_cleanExpiredEntries].
    destruct (negb (chunkCount e =? c)); simpl.
    + by rewrite getCache_removeSummary, getCache_cleanExpiredEntries.
    + apply getCache_cleanExpiredEntries.
  - assert (getCache (removeSummary docId scope userId
                        (cleanExpiredEntries now st)) = swept) as Hrm.
    { rewrite getCache_removeSummary, getCache_cleanExpiredEntries.
      fold key swept. by rewrite delete_id. }
    destruct (isPrototypeMember key);
      [|destruct currentChunkCount; apply getCache_cleanExpiredEntries].
    destruct (truthy userId);
      [destruct currentChunkCount; apply getCache_cleanExpiredEntries|].
    destruct currentChunkCount; simpl;
      [exact Hrm|apply getCache_cleanExpiredEntries].
Qed.

Lemma getCache_setSummary docId summary scope userId ttl chunkCount now st :
  getCache (setSummary docId summary scope userId ttl chunkCount now st)
  = assign (generateCacheKey docId scope userId)
           (entryOf docId summary scope userId ttl chunkCount now)
           (getCache st).
Proof.
  unfold setSummary, entryOf, effectiveTtl. simpl.
  by destruct ttl as [[t| | |]|]; [destruct (t =? 0)|..].
Qed.

(** The three facts about the assignment of setSummary. *)
Lemma lookup_assign_eq key e (cache : gmap string CachedSummary) :
  storesAt key cache → assign key e cache !! key = Some e.
Proof.
  intros Hs. unfold assign.
  destruct (cache !! key) eqn:Hk; [apply lookup_insert_eq|].
  destruct Hs as [Hne|[x Hx]]; [|congruence].
  rewrite bool_decide_eq_false_2 by done. apply lookup_insert_eq.
Qed.

Lemma lookup_assign_ne key k e (cache : gmap string CachedSummary) :
  k ≠ key → assign key e cache !! k = cache !! k.
Proof.
  intros Hne. unfold assign.
  destruct (cache !! key); [by rewrite lookup_insert_ne|].
  destruct (bool_decide _); [done|by rewrite lookup_insert_ne].
Qed.

Lemma assign_cases key e (cache : gmap string CachedSummary) :
  (storesAt key cache ∧ assign key e cache = <[key := e]> cache)
  ∨ (key = "__proto__" ∧ cache !! key = None ∧ assign key e cache = cache).
Proof.
  unfold assign, storesAt.
  destruct (cache !! key) eqn:Hk; [left; split; [right; eauto|done]|].
  destruct (bool_decide (key = "__proto__")) eqn:Hp.
  - right. by apply bool_decide_eq_true in Hp.
  - left. apply bool_decide_eq_false in Hp. split; [by left|done].
Qed.

Lemma delete_assign key e (cache : gmap string CachedSummary) :
  delete key (assign key e cache) = delete key cache.
Proof.
  destruct (assign_cases key e cache) as [[_ ->]|(_ & _ & ->)]; [|done].
  apply delete_insert_eq.
Qed.

Lemma totalEntries_size (u : option string) (now : Z) (st : Storage) :
  totalEntries (getCacheStats u now st) = size (getCache st).
Proof.
  unfold getCacheStats; simpl.
  by rewrite length_fmap, length_map_to_list.
Qed.

Lemma getCacheStats_ext (u : option string) (now : Z) (st st' : Storage) :
  getCache st = getCache st' → getCacheStats u now st = getCacheStats u now st'.
Proof. unfold getCacheStats. by intros ->. Qed.

Lemma swept_insert_delete (now : Z) (k : string) (e : CachedSummary)
    (cache : gmap string CachedSummary) :
  delete k (filter (λ kv, isExpired now kv.2 = false) (<[k:=e]> cache))
  = delete k (filter (λ kv, isExpired now kv.2 = false) cache).
Proof.
  rewrite <- !map_filter_delete. by rewrite delete_insert_eq.
Qed.

Lemma swept_assign_delete (now : Z) (k : string) (e : CachedSummary)
    (cache : gmap string CachedSummary) :
  delete k (filter (λ kv, isExpired now kv.2 = false) (assign k e cache))
  = delete k (filter (λ kv, isExpired now kv.2 = false) cache).
Proof.
  rewrite <- !map_filter_delete. by rewrite delete_assign.
Qed.

End CacheFacts.

Section CacheTheorems.
Import Cache.

(** What a read finds where nothing is stored, when a chunk count is
    supplied: always null. *)
Lemma answer_unstored_with_count userId c now key :
  answer userId (Some c) now key None = JsNull.
Proof.
  unfold answer. destruct (isPrototypeMember key); [|done].
  by destruct (truthy userId).
Qed.

Lemma answer_expired userId ask now key e :
  isExpired now e = true →
  answer userId ask now key (Some e) = answer userId ask now key None.
Proof. intros He. unfold answer. by rewrite He. Qed.

(** C3.  After [setSummary] was called with chunk count [g1], a [getSummary]
    for the same document, scope and owner with a current chunk count
    [g2 ≠ g1] returns null and leaves a storage without an entry for that
    key: the key is free, the storage is the swept earlier storage with the
    key deleted, getCacheStats counts what that storage holds, never more
    entries than before the read and strictly fewer when the write had left
    an entry under the key, which it does for every key but a free
    [__proto__]. *)
Theorem generation_mismatch_evicts
    (st : Storage) (docId scope payload : string) (owner : option string)
    (ttl : option JsNumber) (g1 g2 t1 t2 : Z) :
  g1 ≠ g2 →
  let key := generateCacheKey docId scope owner in
  let st1 := setSummary docId payload scope owner ttl (Some g1) t1 st in
  let r := getSummary docId scope owner (Some g2) t2 st1 in
  r.1 = JsNull
  ∧ getCache r.2 !! key = None
  ∧ getCache r.2
    = delete key (filter (λ kv, isExpired t2 kv.2 = false) (getCache st))
  ∧ (∀ u t3,
        getCacheStats u t3 r.2
        = getCacheStats u t3
            (Item (delete key (filter (λ kv, isExpired t2 kv.2 = false)
                                      (getCache st))))
        ∧ (totalEntries (getCacheStats u t3 r.2)
           <= totalEntries (getCacheStats u t3 st1))%nat
        ∧ (is_Some (getCache st1 !! key) →
           (totalEntries (getCacheStats u t3 r.2)
            < totalEntries (getCacheStats u t3 st1))%nat))
  ∧ (storesAt key (getCache st) →
     getCache st1 !! key
     = Some (entryOf docId payload scope owner ttl (Some g1) t1)).
Proof.
  intros Hg key st1 r.
  set (P := λ kv : string * CachedSummary, isExpired t2 kv.2 = false).
  set (e := entryOf docId payload scope owner ttl (Some g1) t1).
  assert (getCache st1 = assign key e (getCache st)) as Hst1
    by apply getCache_setSummary.
  assert ((g1 =? g2) = false) as Hne by by apply Z.eqb_neq.
  assert (r.1 = JsNull) as Hr.
  { subst r. rewrite getSummary_answer. fold key. rewrite Hst1.
    destruct (assign_cases key e (getCache st)) as [[_ ->]|(_ & Hk & ->)].
    - rewrite lookup_insert_eq.
      destruct (isExpired t2 e) eqn:He.
      { rewrite answer_expired by done. apply answer_unstored_with_count. }
      unfold answer. rewrite He.
      replace (Cache.userId e) with owner by done.
      replace (chunkCount e) with g1 by done.
      by rewrite Hne, bool_decide_eq_true_2, andb_false_r.
    - rewrite Hk. apply answer_unstored_with_count. }
  assert (getCache r.2 = delete key (filter P (getCache st))) as Hc.
  { subst r. rewrite getCache_getSummary. fold key. rewrite Hst1.
    rewrite lookup_swept. fold P.
    destruct (assign_cases key e (getCache st)) as [[_ ->]|(_ & Hk & ->)].
    - rewrite lookup_insert_eq.
      destruct (isExpired t2 e) eqn:He.
      + rewrite map_filter_insert_False by (unfold P; simpl; congruence).
        by rewrite map_filter_delete.
      + replace (Cache.userId e) with owner by done.
        replace (chunkCount e) with g1 by done.
        rewrite Hne, bool_decide_eq_true_2, andb_false_r by done.
        simpl. apply swept_insert_delete.
    - rewrite Hk. rewrite delete_id; [done|].
      apply map_lookup_filter_None. by left. }
  split; [done|]. split; [rewrite Hc; apply lookup_delete_eq|].
  split; [done|]. split.
  - intros u t3. split; [by apply getCacheStats_ext|].
    rewrite !totalEntries_size, Hc, Hst1.
    rewrite <- (swept_assign_delete t2 key e), <- map_filter_delete.
    fold P.
    assert (size (filter P (delete key (assign key e (getCache st))))
            <= size (delete key (assign key e (getCache st))))%nat as Hle
      by apply map_subseteq_size, map_filter_subseteq.
    split.
    + etrans; [exact Hle|]. apply map_subseteq_size, delete_subseteq.
    + intros Hsome. rewrite map_size_delete_Some in Hle by done.
      assert (size (assign key e (getCache st)) ≠ 0%nat)
        by by apply (map_size_ne_0_lookup_2 _ key).
      lia.
  - intros Hs. rewrite Hst1. by apply lookup_assign_eq.
Qed.

Lemma generation_mismatch_evicts_witness :
  5 ≠ 6
  ∧ (getSummary "doc42" "full" (Some "u1") (Some 6) 10
       (setSummary "doc42" "Executive summary text" "full" (Some "u1")
                   None (Some 5) 0 NoItem)).1 = JsNull.
Proof.
  split; [lia|].
  exact (proj1 (generation_mismatch_evicts NoItem "doc42" "full"
                  "Executive summary text" (Some "u1") None 5 6 0 10
                  ltac:(lia))).
Defined.

(** Scenario 1 of the specification: the matching chunk count is served. *)
Example scenario_matching_generation :
  (getSummary "doc42" "full" (Some "u1") (Some 5) 10
     (setSummary "doc42" "Executive summary text" "full" (Some "u1")
                 None (Some 5) 0 NoItem)).1
  = JsString "Executive summary text".
Proof. vm_compute. reflexivity. Qed.

(** C6, as amended.  Owner isolation.  For two different owner identifiers,
    a [setSummary] under [ownerA] does not change what [getSummary] returns
    for the same document and scope under [ownerB]; and when [ownerB] is not
    the empty string, whatever summary a [getSummary] under [ownerB] returns
    after that write, for any document and scope, is the summary of an entry
    that was stored before the write and carries the user id [ownerB]: it is
    never the entry [ownerA] wrote. *)
Theorem owner_isolation
    (st : Storage) (docId scope payload ownerA ownerB : string)
    (ttl : option JsNumber) (chunkCount currentChunkCount : option Z)
    (tset tget : Z) :
  ownerA ≠ ownerB →
  let st' := setSummary docId payload scope (Some ownerA) ttl chunkCount
                        tset st in
  (getSummary docId scope (Some ownerB) currentChunkCount tget st').1
  = (getSummary docId scope (Some ownerB) currentChunkCount tget st).1
  ∧ (ownerB ≠ "" →
     ∀ docId' scope' s,
       (getSummary docId' scope' (Some ownerB) currentChunkCount tget st').1
       = JsString s →
       ∃ e, getCache st !! generateCacheKey docId' scope' (Some ownerB)
            = Some e
            ∧ Cache.userId e = Some ownerB
            ∧ summary e = s).
Proof.
  intros Hab st'.
  assert (getCache st'
          = assign (generateCacheKey docId scope (Some ownerA))
                   (entryOf docId payload scope (Some ownerA) ttl chunkCount
                            tset)
                   (getCache st)) as Hst' by apply getCache_setSummary.
  split.
  - rewrite !getSummary_answer, Hst'.
    rewrite lookup_assign_ne; [done|].
    intros H. by apply (generateCacheKey_owner_ne docId scope ownerA ownerB).
  - intros HB docId' scope' s. rewrite getSummary_answer.
    set (keyB := generateCacheKey docId' scope' (Some ownerB)).
    assert (truthy (Some ownerB) = true) as Ht by by destruct ownerB.
    destruct (getCache st' !! keyB) as [e|] eqn:Hk.
    2:{ unfold answer. rewrite Ht. by destruct (isPrototypeMember keyB). }
    unfold answer. rewrite Ht.
    destruct (isExpired tget e); [by destruct (isPrototypeMember keyB)|].
    destruct (bool_decide (Cache.userId e = Some ownerB)) eqn:Ho; [|done].
    apply bool_decide_eq_true in Ho. simpl.
    intros Hs.
    assert (summary e = s) as Hsum.
    { destruct currentChunkCount as [c|]; [|congruence].
      destruct (negb (Cache.chunkCount e =? c)); [done|congruence]. }
    exists e. split; [|done].
    rewrite Hst' in Hk.
    destruct (decide (keyB = generateCacheKey docId scope (Some ownerA)))
      as [Heq|Hne]; [|by rewrite lookup_assign_ne in Hk].
    rewrite Heq in Hk |- *.
    destruct (assign_cases (generateCacheKey docId scope (Some ownerA))
                (entryOf docId payload scope (Some ownerA) ttl chunkCount tset)
                (getCache st)) as [[_ Ha]|(_ & Hfree & Ha)];
      rewrite Ha in Hk; [|done].
    rewrite lookup_insert_eq in Hk. injection Hk as <-.
    simpl in Ho. congruence.
Qed.

Lemma owner_isolation_witness :
  "u1" ≠ "u2"
  ∧ (getSummary "doc42" "full" (Some "u2") (Some 5) 10
       (setSummary "doc42" "text" "full" (Some "u1") None (Some 5) 0 NoItem)).1
    = (getSummary "doc42" "full" (Some "u2") (Some 5) 10 NoItem).1.
Proof.
  split; [done|].
  exact (proj1 (owner_isolation NoItem "doc42" "full" "text" "u1" "u2"
                  None (Some 5) (Some 5) 0 10 ltac:(done))).
Defined.

(** C6, as stated, fails for a caller whose owner identifier is the empty
    string: getSummary checks the owner only for a truthy user id, and the
    key of (document [a_b], scope [c], owner empty) is the key of (document
    [a], scope [b], owner [c]).  The entry written under owner [c] is
    returned to the caller with the different owner identifier. *)
Lemma empty_owner_reads_other_owner :
  "c" ≠ ""
  ∧ (getSummary "a_b" "c" (Some "") None 10
       (setSummary "a" "text" "b" (Some "c") None None 0 NoItem)).1
    = JsString "text"
  ∧ (getSummary "a_b" "c" (Some "") None 10 NoItem).1 = JsNull.
Proof. split; [done|]. split; vm_compute; reflexivity. Qed.

(** C8, as amended.  Once the current time is past [expiresAt]
    ([now > expiresAt]), [getSummary] returns no summary for the key of that
    entry, whatever chunk count and owner are supplied, and the entry is
    gone from the storage the call leaves behind.  What it returns is null,
    except that for a key that names a member of Object.prototype, a caller
    without user id and without chunk count is handed [undefined]. *)
Theorem expired_entry_not_served
    (st : Storage) (docId scope : string) (userId : option string)
    (currentChunkCount : option Z) (now : Z) (e : CachedSummary) :
  getCache st !! generateCacheKey docId scope userId = Some e →
  toNumber (expiresAt e) < now →
  let key := generateCacheKey docId scope userId in
  let r := getSummary docId scope userId currentChunkCount now st in
  (∀ s, r.1 ≠ JsString s)
  ∧ (r.1 = JsUndefined →
     isPrototypeMember key = true ∧ truthy userId = false
     ∧ currentChunkCount = None)
  ∧ (isPrototypeMember key = false → r.1 = JsNull)
  ∧ getCache r.2 !! key = None.
Proof.
  intros Hk Hexp key r. fold key in Hk.
  assert (isExpired now e = true) as He by by apply Z.ltb_lt.
  assert (r.1 = if isPrototypeMember key
                then if truthy userId then JsNull
                     else match currentChunkCount with
                          | Some _ => JsNull
                          | None => JsUndefined
                          end
                else JsNull) as Hr.
  { subst r. rewrite getSummary_answer. fold key. rewrite Hk.
    unfold answer. by rewrite He. }
  split; [|split; [|split]].
  - intros s. rewrite Hr. destruct (isPrototypeMember key); [|done].
    destruct (truthy userId); [done|]. by destruct currentChunkCount.
  - rewrite Hr. destruct (isPrototypeMember key); [|done].
    destruct (truthy userId); [done|]. by destruct currentChunkCount.
  - intros Hp. by rewrite Hr, Hp.
  - subst r. rewrite getCache_getSummary. fold key.
    rewrite lookup_swept, Hk, He. by rewrite lookup_swept, Hk, He.
Qed.

Lemma expired_entry_not_served_witness :
  let st := setSummary "doc42" "text" "full" (Some "u1") (Some (Finite 1000))
                       (Some 5) 0 NoItem in
  (getSummary "doc42" "full" (Some "u1") (Some 5) 1001 st).1 = JsNull.
Proof.
  intros st.
  refine (proj1 (proj2 (proj2 (expired_entry_not_served st "doc42" "full"
                                 (Some "u1") (Some 5) 1001
                                 (mkCachedSummary "text" 0 "doc42" "full"
                                                  (Num 1000) (Some "u1") 5)
                                 _ _))) _).
  - vm_compute. reflexivity.
  - simpl. lia.
  - vm_compute. reflexivity.
Defined.

(** C8, as stated, fails at [now = expiresAt]: isExpired compares with
    [>], so the entry written with a TTL of 1000 ms at time 0 is still
    served at time 1000, with matching chunk count and owner. *)
Lemma expiry_boundary_still_served :
  let st := setSummary "doc42" "text" "full" (Some "u1") (Some (Finite 1000))
                       (Some 5) 0 NoItem in
  (∃ e, getCache st !! generateCacheKey "doc42" "full" (Some "u1") = Some e
        ∧ 1000 >= toNumber (expiresAt e))
  ∧ (getSummary "doc42" "full" (Some "u1") (Some 5) 1000 st).1
    = JsString "text".
Proof.
  split.
  - eexists. split; [vm_compute; reflexivity|]. simpl. lia.
  - vm_compute. reflexivity.
Qed.

(** C10, as amended.  [setSummary] treats a ttl of 0 as absent: an entry
    found under the key after the call expires at the call time plus the
    default 24 hours; the call leaves an entry under every key but a free
    [__proto__]; and for every ttl that is absent, NaN or a whole number of
    milliseconds that is not negative, the entry found under the key after
    the call expires strictly after the call time and is not expired at the
    call time. *)
Theorem setSummary_zero_ttl_default
    (st : Storage) (docId summary scope : string) (userId : option string)
    (chunkCount : option Z) (now : Z) :
  let key := generateCacheKey docId scope userId in
  (∀ e, getCache (setSummary docId summary scope userId (Some (Finite 0))
                             chunkCount now st) !! key = Some e →
        expiresAt e = Num (now + 24 * 60 * 60 * 1000))
  ∧ (∀ ttl, storesAt key (getCache st) →
            is_Some (getCache (setSummary docId summary scope userId ttl
                                          chunkCount now st) !! key))
  ∧ ∀ ttl : option JsNumber,
      (∀ t, ttl = Some t → t = NaN ∨ ∃ z, t = Finite z ∧ 0 <= z) →
      ∀ e, getCache (setSummary docId summary scope userId ttl chunkCount
                                now st) !! key = Some e →
           now < toNumber (expiresAt e) ∧ isExpired now e = false.
Proof.
  intros key.
  assert (∀ ttl e,
            getCache (setSummary docId summary scope userId ttl chunkCount
                                 now st) !! key = Some e →
            e = entryOf docId summary scope userId ttl chunkCount now) as Hnew.
  { intros ttl e. rewrite getCache_setSummary. fold key.
    destruct (assign_cases key
                (entryOf docId summary scope userId ttl chunkCount now)
                (getCache st)) as [[_ ->]|(_ & Hfree & ->)].
    - rewrite lookup_insert_eq. congruence.
    - congruence. }
  split; [|split].
  - intros e He. by rewrite (Hnew _ _ He).
  - intros ttl Hs. rewrite getCache_setSummary. fold key.
    rewrite lookup_assign_eq by done. eauto.
  - intros ttl Httl e He. rewrite (Hnew _ _ He).
    assert (now < toNumber (addToNow now (effectiveTtl ttl))) as Hlt.
    { unfold effectiveTtl, DEFAULT_TTL.
      destruct ttl as [t|]; [|simpl; lia].
      destruct (Httl t eq_refl) as [->|(z & -> & Hz)]; [simpl; lia|].
      destruct (z =? 0) eqn:H0; [simpl; lia|].
      apply Z.eqb_neq in H0. simpl. lia. }
    split; [exact Hlt|]. unfold isExpired. simpl. apply Z.ltb_ge. lia.
Qed.

Lemma setSummary_zero_ttl_default_witness :
  ∃ e, getCache (setSummary "doc42" "text" "full" (Some "u1")
                            (Some (Finite 5)) (Some 3) 100 NoItem)
       !! generateCacheKey "doc42" "full" (Some "u1") = Some e
       ∧ 100 < toNumber (expiresAt e)
       ∧ isExpired 100 e = false.
Proof.
  eexists. split; [vm_compute; reflexivity|].
  refine (proj2 (proj2 (setSummary_zero_ttl_default NoItem "doc42" "text"
                          "full" (Some "u1") (Some 3) 100))
                (Some (Finite 5)) _ _ _).
  - intros t Ht. injection Ht as <-. right. exists 5. split; [done|lia].
  - vm_compute. reflexivity.
Defined.

(** C10, as stated, fails for a negative ttl: the entry written at time
    1000 with a ttl of -1 is expired at the time of the call. *)
Lemma negative_ttl_already_expired :
  ∃ e, getCache (setSummary "doc42" "text" "full" (Some "u1")
                            (Some (Finite (-1))) (Some 3) 1000 NoItem)
       !! generateCacheKey "doc42" "full" (Some "u1") = Some e
       ∧ toNumber (expiresAt e) < 1000
       ∧ isExpired 1000 e = true.
Proof.
  eexists. split; [vm_compute; reflexivity|]. split; [simpl; lia|].
  vm_compute. reflexivity.
Qed.

(** An infinite ttl is kept by [ttl || DEFAULT_TTL]; the expiry time is not
    a finite number, is stored as [null], and the entry is expired at any
    positive time. *)
Example infinite_ttl_already_expired :
  ∃ e, getCache (setSummary "doc42" "text" "full" (Some "u1")
                            (Some PlusInfinity) (Some 3) 1000 NoItem)
       !! generateCacheKey "doc42" "full" (Some "u1") = Some e
       ∧ expiresAt e = JsonNull
       ∧ isExpired 1000 e = true.
Proof.
  eexists. split; [vm_compute; reflexivity|]. split; reflexivity.
Qed.

(** A write under the key [__proto__] of a cache without that own property
    stores nothing. *)
Example proto_key_stores_nothing :
  generateCacheKey "_" "proto__" None = "__proto__"
  ∧ getCache (setSummary "_" "text" "proto__" None None None 0 NoItem) = ∅.
Proof. split; reflexivity. Qed.

End CacheTheorems.

(** * Properties of useSummarize *)

Section UseSummarizeTheorems.
Import Cache UseApi.

Lemma answer_servable userId c now key e :
  servable userId c now e = true →
  answer userId (Some c) now key (Some e) = JsString (Cache.summary e).
Proof.
  unfold answer, servable.
  intros [[He Ho]%andb_true_iff Hc]%andb_true_iff.
  apply negb_true_iff in He. rewrite He.
  destruct (truthy userId); simpl in *; by rewrite ?Ho, Hc.
Qed.

Lemma answer_not_servable userId c now key found :
  (∀ e, found = Some e → servable userId c now e = false) →
  answer userId (Some c) now key found = JsNull.
Proof.
  intros Hno. destruct found as [e|]; [|apply answer_unstored_with_count].
  specialize (Hno e eq_refl). unfold servable in Hno.
  destruct (isExpired now e) eqn:He.
  { rewrite answer_expired by done. apply answer_unstored_with_count. }
  unfold answer. rewrite He. simpl in Hno.
  destruct (truthy userId); simpl in *.
  - destruct (bool_decide _); simpl in *; [by rewrite Hno|done].
  - by rewrite Hno.
Qed.

Lemma truthy_Some_ne (s : string) : s ≠ "" → truthy (Some s) = true.
Proof. by destruct s. Qed.

(** C5, as amended.  useSummarize, for a document whose current chunk
    count is [c]:
    - when the cache holds a servable entry for (document, scope, owner)
      with a non-empty summary, the mutation resolves to that summary
      with [fromCache: true] and summarize is not called;
    - when the cache holds no servable entry, summarize is called and its
      summary is returned with [fromCache: false]; unless the key is
      [__proto__], the summary is stored under the key with chunk count [c]
      and the default TTL;
    - so, from an empty cache, for a key other than [__proto__] and a
      generator that returns a non-empty summary [s], a first call returns
      [s] as generated and a second call at the same chunk count, within
      the TTL, returns [s] from the cache without calling summarize. *)
Theorem useSummarize_cache_or_generate
    (userId : option string) (getDocument : string → option Z)
    (summarize : SummarizeRequest → option string)
    (data : SummarizeRequest) (c now now' : Z) (st : Storage) :
  getDocument (doc_id data) = Some c →
  let scope' := if truthy (Some (scope data)) then scope data else "full" in
  let key := generateCacheKey (doc_id data) scope' userId in
  let call := mutationFn userId getDocument summarize data in
  (∀ e, getCache st !! key = Some e →
        servable userId c now e = true →
        Cache.summary e ≠ "" →
        (call now now' st).1.1
        = Some (mkSummarizeResult (Cache.summary e) true c "loaded_from_cache")
        ∧ (call now now' st).2 = [GetDocument (doc_id data)])
  ∧ (∀ s, (∀ e, getCache st !! key = Some e → servable userId c now e = false) →
          summarize data = Some s →
          (call now now' st).1.1
          = Some (mkSummarizeResult s false c "generated_new")
          ∧ (call now now' st).2 = [GetDocument (doc_id data); Summarize data]
          ∧ (key ≠ "__proto__" →
             getCache (call now now' st).1.2 !! key
             = Some (mkCachedSummary s now' (doc_id data) scope'
                       (Num (now' + DEFAULT_TTL)) userId c)))
  ∧ (∀ s now2 now2',
        getCache st = ∅ →
        key ≠ "__proto__" →
        summarize data = Some s →
        s ≠ "" →
        now2 <= now' + DEFAULT_TTL →
        (call now now' st).1.1
        = Some (mkSummarizeResult s false c "generated_new")
        ∧ (call now2 now2' (call now now' st).1.2).1.1
          = Some (mkSummarizeResult s true c "loaded_from_cache")
        ∧ (call now2 now2' (call now now' st).1.2).2
          = [GetDocument (doc_id data)]).
Proof.
  intros Hdoc scope' key call.
  assert (∀ t t' st0 e,
            getCache st0 !! key = Some e →
            servable userId c t e = true →
            Cache.summary e ≠ "" →
            (call t t' st0).1.1
            = Some (mkSummarizeResult (Cache.summary e) true c
                                      "loaded_from_cache")
            ∧ (call t t' st0).2 = [GetDocument (doc_id data)]) as Hhit.
  { intros t t' st0 e Hk Hs Hne. subst call. unfold mutationFn.
    rewrite Hdoc. fold scope'.
    pose proof (getSummary_answer (doc_id data) scope' userId (Some c) t st0)
      as Ha.
    fold key in Ha. rewrite Hk, answer_servable in Ha by done.
    destruct (getSummary _ _ _ _ _ _) as [r st1]. simpl in Ha. subst r.
    unfold truthyValue. rewrite (truthy_Some_ne _ Hne). done. }
  assert (∀ s t t' st0,
            (∀ e, getCache st0 !! key = Some e → servable userId c t e = false) →
            summarize data = Some s →
            (call t t' st0).1.1
            = Some (mkSummarizeResult s false c "generated_new")
            ∧ (call t t' st0).2 = [GetDocument (doc_id data); Summarize data]
            ∧ (key ≠ "__proto__" →
               getCache (call t t' st0).1.2 !! key
               = Some (mkCachedSummary s t' (doc_id data) scope'
                         (Num (t' + DEFAULT_TTL)) userId c))) as Hmiss.
  { intros s t t' st0 Hno Hs. subst call. unfold mutationFn.
    rewrite Hdoc. fold scope'.
    pose proof (getSummary_answer (doc_id data) scope' userId (Some c) t st0)
      as Ha.
    fold key in Ha. rewrite answer_not_servable in Ha by done.
    destruct (getSummary _ _ _ _ _ _) as [r st1]. simpl in Ha. subst r.
    cbn [truthyValue]. rewrite Hs. split; [done|]. split; [done|].
    intros Hkey. cbn [fst snd]. rewrite getCache_setSummary. fold key.
    rewrite lookup_assign_eq by by left. done. }
  split; [intros e; apply Hhit|]. split; [intros s; apply Hmiss|].
  intros s now2 now2' Hempty Hkey Hs Hne Hnow2.
  destruct (Hmiss s now now' st) as (H1 & _ & H3); [|done|].
  { intros e. rewrite Hempty, lookup_empty. done. }
  split; [done|].
  apply (Hhit now2 now2' _ _ (H3 Hkey)); [|done].
  unfold servable, isExpired. simpl.
  rewrite bool_decide_eq_true_2, orb_true_r, Z.eqb_refl by done.
  rewrite !andb_true_r. apply negb_true_iff, Z.ltb_ge. lia.
Qed.

(** Scenario 3 of the specification. *)
Lemma useSummarize_cache_or_generate_witness :
  let call := mutationFn None (λ _, Some 3) (λ _, Some "S")
                         (mkSummarizeRequest "doc9" "full" None) in
  (call 0 5 NoItem).1.1 = Some (mkSummarizeResult "S" false 3 "generated_new")
  ∧ (call 6 7 (call 0 5 NoItem).1.2).1.1
    = Some (mkSummarizeResult "S" true 3 "loaded_from_cache")
  ∧ (call 6 7 (call 0 5 NoItem).1.2).2 = [GetDocument "doc9"].
Proof.
  intros call.
  refine (proj2 (proj2 (useSummarize_cache_or_generate None (λ _, Some 3)
                          (λ _, Some "S")
                          (mkSummarizeRequest "doc9" "full" None)
                          3 0 5 NoItem eq_refl))
                "S" 6 7 _ _ _ _ _).
  - reflexivity.
  - vm_compute. discriminate.
  - reflexivity.
  - discriminate.
  - vm_compute. discriminate.
Defined.

(** C5, as stated, fails for an empty summary: [if (cachedSummary)] takes
    the empty string for a miss.  After a first call whose generator
    returned the empty summary, the cache holds a servable entry for the
    key, and an immediate second call at the same chunk count calls
    summarize again and returns [fromCache: false]. *)
Lemma empty_summary_regenerated :
  let data := mkSummarizeRequest "doc9" "full" None in
  let call := mutationFn None (λ _, Some 3) (λ _, Some "") data in
  let st1 := (call 0 0 NoItem).1.2 in
  (∃ e, getCache st1 !! generateCacheKey "doc9" "full" None = Some e
        ∧ servable None 3 0 e = true)
  ∧ (call 0 0 st1).1.1 = Some (mkSummarizeResult "" false 3 "generated_new")
  ∧ (call 0 0 st1).2 = [GetDocument "doc9"; Summarize data].
Proof.
  split; [eexists; split; vm_compute; reflexivity|].
  split; vm_compute; reflexivity.
Qed.

(** Under the key [__proto__] nothing is stored: a second call generates
    again. *)
Example proto_key_summary_regenerated :
  let data := mkSummarizeRequest "_" "proto__" None in
  let call := mutationFn None (λ _, Some 3) (λ _, Some "S") data in
  (call 1 1 (call 0 0 NoItem).1.2).2 = [GetDocument "_"; Summarize data].
Proof. vm_compute. reflexivity. Qed.

End UseSummarizeTheorems.

(** * Properties of the status poller *)

Section BackoffTheorems.

Lemma getBackoffDelay_from_4 (n : nat) : getBackoffDelay (4 + n) = 10000.
Proof. by destruct n. Qed.

Lemma getBackoffDelay_bounds (n : nat) : 1000 <= getBackoffDelay n <= 10000.
Proof.
  do 4 (destruct n as [|n]; [vm_compute; split; discriminate|]).
  change (S (S (S (S n)))) with (4 + n)%nat.
  rewrite getBackoffDelay_from_4. lia.
Qed.

(** C7.  For every attempt index [n], the backoff delay is the entry
    [min(n, 4)] of the table 1000, 2000, 4000, 8000, 10000; the delays of
    attempts 0 to 5 are 1000, 2000, 4000, 8000, 10000, 10000; and no delay
    exceeds 10000 ms. *)
Theorem getBackoffDelay_table (n : nat) :
  nth_error [1000; 2000; 4000; 8000; 10000] (Nat.min n 4)
  = Some (getBackoffDelay n)
  ∧ List.map getBackoffDelay [0; 1; 2; 3; 4; 5]%nat
    = [1000; 2000; 4000; 8000; 10000; 10000]
  ∧ getBackoffDelay n <= 10000.
Proof.
  split; [|split; [reflexivity|apply getBackoffDelay_bounds]].
  do 4 (destruct n as [|n]; [reflexivity|]).
  change (S (S (S (S n)))) with (4 + n)%nat.
  rewrite getBackoffDelay_from_4.
  replace (Nat.min (4 + n) 4) with 4%nat by lia. reflexivity.
Qed.

End BackoffTheorems.

Section ReadyTheorems.

Lemma app_singleton_ne {A} (l : list A) (x : A) : l ++ [x] ≠ l.
Proof.
  intros H. apply (f_equal length) in H. rewrite length_app in H.
  simpl in H. lia.
Qed.




End ReadyTheorems.

Section RetryTheorems.

Lemma PdfUploader_run_add (source : nat → Response) (n m : nat) (clock : Z)
    (st : PdfUploader.State) :
  PdfUploader.run source (n + m) clock st
  = PdfUploader.run source m (PdfUploader.run source n clock st).1
                    (PdfUploader.run source n clock st).2.
Proof.
  revert clock st. induction n as [|n IH]; intros clock st; [done|].
  simpl. destruct (PdfUploader.requests st) as [|req reqs] eqn:Hr.
  - destruct (PdfUploader.timers st) as [|t ts] eqn:Ht.
    + simpl. destruct m; [done|]. simpl. by rewrite Hr, Ht.
    + apply IH.
  - apply IH.
Qed.

Lemma DocumentPage_run_add (source : nat → Response) (n m : nat) (clock : Z)
    (st : DocumentPage.State) :
  DocumentPage.run source (n + m) clock st
  = DocumentPage.run source m (DocumentPage.run source n clock st).1
                     (DocumentPage.run source n clock st).2.
Proof.
  revert clock st. induction n as [|n IH]; intros clock st; [done|].
  simpl. destruct (DocumentPage.requests st) as [|req reqs] eqn:Hr.
  - destruct (DocumentPage.timers st) as [|t ts] eqn:Ht.
    + simpl. destruct m; [done|]. simpl. by rewrite Hr, Ht.
    + apply IH.
  - apply IH.
Qed.

Lemma PdfUploader_run_quiescent (source : nat → Response) (m : nat)
    (clock : Z) (st : PdfUploader.State) :
  PdfUploader.requests st = [] → PdfUploader.timers st = [] →
  PdfUploader.run source m clock st = (clock, st).
Proof. intros Hr Ht. destruct m; [done|]. simpl. by rewrite Hr, Ht. Qed.

Lemma DocumentPage_run_quiescent (source : nat → Response) (m : nat)
    (clock : Z) (st : DocumentPage.State) :
  DocumentPage.requests st = [] → DocumentPage.timers st = [] →
  DocumentPage.run source m clock st = (clock, st).
Proof. intros Hr Ht. destruct m; [done|]. simpl. by rewrite Hr, Ht. Qed.

(** C9.  When every status request of a poll is rejected, both pollers
    send exactly 11 requests (attempt indices 0 to 10) and then stop: the
    rejection of the request of attempt 10 makes the transition to failed,
    no earlier point of the run does, and with fuel for 21 events or more
    the run ends there, with no timer armed and no request in flight. *)
Theorem all_rejected_fails_at_attempt_10 (docId : string) :
  (∀ k, let r := (PdfUploader.run allRejected (21 + k) 0
                                   (PdfUploader.start docId)).2 in
        PdfUploader.status r = PdfUploader.Error
        ∧ PdfUploader.statusCalls r = 11%nat
        ∧ PdfUploader.requests r = [] ∧ PdfUploader.timers r = [])
  ∧ (∀ fuel, (fuel < 21)%nat →
        let r := (PdfUploader.run allRejected fuel 0
                                  (PdfUploader.start docId)).2 in
        PdfUploader.status r = PdfUploader.Processing
        ∧ PdfUploader.statusCalls r = S (fuel / 2))
  ∧ (let st := (PdfUploader.run allRejected 20 0
                                (PdfUploader.start docId)).2 in
     PdfUploader.requests st = [mkRequest docId 10]
     ∧ PdfUploader.becomesFailed st
         (PdfUploader.step (PdfUploader.RequestSettles 0 Rejected) st))
  ∧ (∀ k, let r := (DocumentPage.run allRejected (21 + k) 0
                                     (DocumentPage.start docId)).2 in
          DocumentPage.statusCalls r = 11%nat
          ∧ DocumentPage.requests r = [] ∧ DocumentPage.timers r = []
          ∧ DocumentPage.effects r
            = replicate 11 (DocumentPage.ToastError "Failed to load document")
              ++ [DocumentPage.ToastError "Failed to check document status"])
  ∧ (∀ fuel, (fuel < 21)%nat →
        let r := (DocumentPage.run allRejected fuel 0
                                   (DocumentPage.start docId)).2 in
        DocumentPage.statusCalls r = S (fuel / 2)
        ∧ DocumentPage.effects r
          = replicate ((fuel + 1) / 2)
                      (DocumentPage.ToastError "Failed to load document"))
  ∧ (let st := (DocumentPage.run allRejected 20 0
                                 (DocumentPage.start docId)).2 in
     DocumentPage.requests st = [mkRequest docId 10]
     ∧ DocumentPage.becomesFailed st
         (DocumentPage.step (DocumentPage.RequestSettles 0 Rejected) st)).
Proof.
  split; [|split; [|split; [|split; [|split]]]].
  - intros k r. subst r. rewrite PdfUploader_run_add.
    rewrite PdfUploader_run_quiescent by (vm_compute; reflexivity).
    vm_compute. by repeat split.
  - intros fuel Hfuel r. subst r.
    do 21 (destruct fuel as [|fuel]; [vm_compute; by split|]). lia.
  - vm_compute. split; [done|]. split; [done|]. split; [|done]. by eexists.
  - intros k r. subst r. rewrite DocumentPage_run_add.
    rewrite DocumentPage_run_quiescent by (vm_compute; reflexivity).
    vm_compute. by repeat split.
  - intros fuel Hfuel r. subst r.
    do 21 (destruct fuel as [|fuel]; [vm_compute; by split|]). lia.
  - vm_compute. by repeat split.
Qed.

Lemma all_rejected_fails_at_attempt_10_witness :
  (7 < 21)%nat
  ∧ PdfUploader.status
      (PdfUploader.run allRejected 7 0 (PdfUploader.start "doc7")).2
    = PdfUploader.Processing.
Proof.
  split; [lia|].
  exact (proj1 (proj1 (proj2 (all_rejected_fails_at_attempt_10 "doc7"))
                      7%nat ltac:(lia))).
Defined.

End RetryTheorems.

Section BudgetTheorems.
Import PdfUploader.

(** Two events of a poll whose probes report a pending document: the
    request in flight resolves and arms a timer, the timer fires and sends
    the next request. *)
Lemma run_allPending_round (clock : Z) (st : State) (req : Request) :
  requests st = [req] → timers st = [] →
  ∃ st',
    run allPending 2 clock st
    = (clock + getBackoffDelay (reqAttempt req), st')
    ∧ requests st' = [mkRequest (reqDocId req) (reqAttempt req + 1)]
    ∧ timers st' = []
    ∧ status st' = status st
    ∧ statusCalls st' = S (statusCalls st).
Proof.
  intros Hr Ht. eexists. split.
  - simpl. rewrite Hr. simpl. rewrite Ht. simpl.
    rewrite Nat.eqb_refl. reflexivity.
  - simpl. done.
Qed.

Lemma run_allPending_even (n : nat) :
  ∀ (clock : Z) (st : State) (req : Request),
    requests st = [req] → timers st = [] →
    let r := run allPending (2 * n) clock st in
    (∃ req', requests r.2 = [req']) ∧ timers r.2 = []
    ∧ status r.2 = status st
    ∧ statusCalls r.2 = (statusCalls st + n)%nat
    ∧ clock + 1000 * Z.of_nat n <= r.1.
Proof.
  induction n as [|n IH]; intros clock st req Hr Ht.
  - simpl. rewrite Hr, Ht. repeat split; [by eexists|lia..].
  - replace (2 * S n)%nat with (2 + 2 * n)%nat by lia.
    cbv zeta. rewrite PdfUploader_run_add.
    destruct (run_allPending_round clock st req Hr Ht)
      as (st' & -> & Hr' & Ht' & Hs' & Hc').
    cbn [fst snd].
    destruct (IH (clock + getBackoffDelay (reqAttempt req)) st' _ Hr' Ht')
      as (Hreq & Htim & Hst & Hcalls & Hclock).
    pose proof (getBackoffDelay_bounds (reqAttempt req)).
    repeat split; [done|done|congruence|lia|lia].
Qed.

Lemma run_allPending_busy (fuel : nat) :
  ∀ (clock : Z) (st : State),
    ((∃ req, requests st = [req]) ∧ timers st = [])
    ∨ (requests st = [] ∧ ∃ t, timers st = [t]) →
    let r := run allPending fuel clock st in
    status r.2 = status st ∧ (requests r.2 ≠ [] ∨ timers r.2 ≠ []).
Proof.
  induction fuel as [|fuel IH]; intros clock st Hphase.
  - simpl. split; [done|].
    destruct Hphase as [[[req ->] _]|[_ [t ->]]]; [by left|by right].
  - destruct Hphase as [[[req Hr] Ht]|[Hr [t Ht]]]; simpl; rewrite Hr.
    + match goal with |- context [run _ _ _ ?s] => set (st' := s) end.
      destruct (IH clock st') as [Hs Hb].
      { right. subst st'. simpl. rewrite Ht. eauto. }
      split; [by rewrite Hs|exact Hb].
    + rewrite Ht. simpl. rewrite Nat.eqb_refl. simpl.
      match goal with |- context [run _ _ _ ?s] => set (st' := s) end.
      destruct (IH (clock + timerDelay t) st') as [Hs Hb].
      { left. subst st'. simpl. rewrite Hr. eauto. }
      split; [by rewrite Hs|exact Hb].
Qed.

(** C2, as amended.  The backoff poller makes the transition to failed
    when a status request is rejected at attempt index 10 or later; a
    rejection at an attempt index below 10 arms the timer of the next
    attempt with the backoff delay and reports nothing.  The poller has no
    wall-clock budget and no attempt budget for resolved requests: while
    every probe reports a pending document it stays in Processing with a
    request in flight or a timer armed, after [2 n] events it has sent
    [n + 1] requests and at least [1000 n] ms have passed. *)
Theorem failed_only_by_rejection_budget :
  (∀ st i req,
      requests st !! i = Some req → (10 <= reqAttempt req)%nat →
      becomesFailed st (step (RequestSettles i Rejected) st))
  ∧ (∀ st i req,
        requests st !! i = Some req → (reqAttempt req < 10)%nat →
        let st' := step (RequestSettles i Rejected) st in
        timers st'
        = timers st ++ [mkTimer (nextTimerId st)
                                (getBackoffDelay (reqAttempt req))
                                (reqDocId req) (reqAttempt req + 1)]
        ∧ status st' = status st ∧ effects st' = effects st)
  ∧ (∀ docId fuel,
        let r := run allPending fuel 0 (start docId) in
        status r.2 = Processing ∧ (requests r.2 ≠ [] ∨ timers r.2 ≠ []))
  ∧ (∀ docId n,
        let r := run allPending (2 * n) 0 (start docId) in
        statusCalls r.2 = S n ∧ 1000 * Z.of_nat n <= r.1).
Proof.
  split; [|split; [|split]].
  - intros st i req Hreq Hn. simpl. rewrite Hreq. simpl.
    assert ((reqAttempt req <? 10)%nat = false) as -> by by apply Nat.ltb_ge.
    by repeat split; [eexists|..].
  - intros st i req Hreq Hn. simpl. rewrite Hreq. simpl.
    assert ((reqAttempt req <? 10)%nat = true) as -> by by apply Nat.ltb_lt.
    done.
  - intros docId fuel.
    apply (run_allPending_busy fuel 0 (start docId)).
    left. split; [by eexists|done].
  - intros docId n.
    destruct (run_allPending_even n 0 (start docId) (mkRequest docId 0))
      as (_ & _ & _ & Hcalls & Hclock); [done..|].
    cbv zeta. split; [exact Hcalls|].
    rewrite Z.add_0_l in Hclock. exact Hclock.
Qed.

Lemma failed_only_by_rejection_budget_witness :
  let st := (run allRejected 20 0 (start "doc7")).2 in
  becomesFailed st (step (RequestSettles 0 Rejected) st).
Proof.
  intros st.
  refine (proj1 failed_only_by_rejection_budget st 0%nat
                (mkRequest "doc7" 10) _ _).
  - vm_compute. reflexivity.
  - simpl. lia.
Defined.

(** C2, as stated, fails: with every probe reporting a pending document,
    after 127 events more than 600,000 ms have passed and 64 requests have
    been sent, and the poller is still in Processing with the timer of the
    next probe armed. *)
Lemma pending_poll_outlives_budgets :
  let r := run allPending 127 0 (start "doc7") in
  600000 <= r.1
  ∧ status r.2 = Processing
  ∧ statusCalls r.2 = 64%nat
  ∧ timers r.2 = [mkTimer 64 10000 "doc7" 64].
Proof. vm_compute. by repeat split. Qed.

End BudgetTheorems.

Section PollShape.
Import PdfUploader.

(** What an undisturbed poll looks like between events: one request in
    flight, or the timer the ref holds armed, or nothing pending. *)
Lemma run_keeps_one_pending (source : nat → Response) (fuel : nat) :
  ∀ (clock : Z) (st : State),
    ((∃ req, requests st = [req]) ∧ timers st = [])
    ∨ (requests st = []
       ∧ ∃ t, timers st = [t] ∧ pollTimeoutRef st = Some (timerId t))
    ∨ (requests st = [] ∧ timers st = []) →
    let st' := (run source fuel clock st).2 in
    ((∃ req, requests st' = [req]) ∧ timers st' = [])
    ∨ (requests st' = []
       ∧ ∃ t, timers st' = [t] ∧ pollTimeoutRef st' = Some (timerId t))
    ∨ (requests st' = [] ∧ timers st' = []).
Proof.
  induction fuel as [|fuel IH]; intros clock st Hinv; [exact Hinv|].
  destruct Hinv as [[[req Hr] Ht]|[[Hr (t & Ht & Href)]|[Hr Ht]]].
  - simpl. rewrite Hr. apply IH. simpl.
    unfold pollDocumentStatus_settled.
    destruct (source (reqAttempt req)) as [doc|].
    + destruct (bool_decide (doc_status doc = DocProcessed)
                || (0 <? chunk_count doc)).
      { right. right. simpl. by rewrite Ht. }
      destruct (bool_decide (doc_status doc = DocError)).
      { right. right. simpl. by rewrite Ht. }
      right. left. simpl. rewrite Ht. split; [done|]. by eexists.
    + destruct (reqAttempt req <? 10)%nat.
      { right. left. simpl. rewrite Ht. split; [done|]. by eexists. }
      right. right. simpl. by rewrite Ht.
  - simpl. rewrite Hr, Ht. apply IH. simpl. rewrite Nat.eqb_refl. simpl.
    left. rewrite Hr. split; [by eexists|done].
  - simpl. rewrite Hr, Ht. right. right. done.
Qed.

End PollShape.

Section CancelTheorems.

Lemma PdfUploader_steps_idle (evs : list PdfUploader.Event)
    (st : PdfUploader.State) :
  PdfUploader.requests st = [] → PdfUploader.timers st = [] →
  forallb PdfUploader.isCompletion evs = true →
  PdfUploader.steps evs st = st.
Proof.
  intros Hr Ht. induction evs as [|ev evs IH]; [done|].
  simpl. intros [Hev Hevs]%andb_true_iff.
  unfold PdfUploader.steps in *. simpl.
  assert (PdfUploader.step ev st = st) as ->; [|by apply IH].
  destruct ev as [d|id|i resp|]; try done; simpl.
  - by rewrite Ht.
  - by rewrite Hr.
Qed.

Lemma DocumentPage_steps_idle (evs : list DocumentPage.Event)
    (st : DocumentPage.State) :
  DocumentPage.requests st = [] → DocumentPage.timers st = [] →
  forallb DocumentPage.isCompletion evs = true →
  DocumentPage.steps evs st = st.
Proof.
  intros Hr Ht. induction evs as [|ev evs IH]; [done|].
  simpl. intros [Hev Hevs]%andb_true_iff.
  unfold DocumentPage.steps in *. simpl.
  assert (DocumentPage.step ev st = st) as ->; [|by apply IH].
  destruct ev as [d resp|id|i resp|]; try done; simpl.
  - by rewrite Ht.
  - by rewrite Hr.
Qed.

(** C4, as amended.  When the poll is cancelled during a pending backoff
    timer, with no status request in flight and the armed timer being the
    only one and the one the ref holds, the timer is cleared, and whatever
    timer or request completions are delivered afterwards change nothing: no
    state transition, no toast and no callback.  A poll started by one
    upload and left alone is in that situation whenever it has no request in
    flight: its armed timer is the only one and the one the ref holds. *)
Theorem cancel_during_backoff_is_final :
  (∀ st t evs,
      PdfUploader.requests st = [] →
      PdfUploader.timers st = [t] →
      PdfUploader.pollTimeoutRef st = Some (timerId t) →
      forallb PdfUploader.isCompletion evs = true →
      let st' := PdfUploader.step PdfUploader.Cancel st in
      PdfUploader.steps evs st' = st'
      ∧ PdfUploader.status st' = PdfUploader.Idle
      ∧ PdfUploader.effects st' = PdfUploader.effects st
      ∧ PdfUploader.timers st' = []
      ∧ PdfUploader.statusCalls st' = PdfUploader.statusCalls st)
  ∧ (∀ st t evs,
        DocumentPage.requests st = [] →
        DocumentPage.timers st = [t] →
        DocumentPage.pollTimeoutRef st = Some (timerId t) →
        forallb DocumentPage.isCompletion evs = true →
        let st' := DocumentPage.step DocumentPage.Cleanup st in
        DocumentPage.steps evs st' = st'
        ∧ DocumentPage.effects st' = DocumentPage.effects st
        ∧ DocumentPage.timers st' = []
        ∧ DocumentPage.statusCalls st' = DocumentPage.statusCalls st)
  ∧ (∀ source fuel docId t,
        let st := (PdfUploader.run source fuel 0
                                   (PdfUploader.start docId)).2 in
        PdfUploader.requests st = [] →
        t ∈ PdfUploader.timers st →
        PdfUploader.timers st = [t]
        ∧ PdfUploader.pollTimeoutRef st = Some (timerId t)).
Proof.
  split; [|split]; [intros st t evs Hr Ht Href Hevs st'..|].
  - assert (PdfUploader.timers st' = []) as Ht'.
    { subst st'. simpl. unfold PdfUploader.handleCancel.
      rewrite Href, Ht. simpl. by rewrite Nat.eqb_refl. }
    assert (PdfUploader.requests st' = []) as Hr'.
    { subst st'. simpl. unfold PdfUploader.handleCancel.
      by rewrite Href. }
    split; [by apply PdfUploader_steps_idle|].
    split; [|split; [|split; [exact Ht'|]]];
      subst st'; simpl; unfold PdfUploader.handleCancel;
      try rewrite Href; done.
  - assert (DocumentPage.timers st' = []) as Ht'.
    { subst st'. simpl. unfold DocumentPage.cleanup.
      rewrite Href, Ht. simpl. by rewrite Nat.eqb_refl. }
    assert (DocumentPage.requests st' = []) as Hr'.
    { subst st'. simpl. unfold DocumentPage.cleanup. by rewrite Href. }
    split; [by apply DocumentPage_steps_idle|].
    split; [|split; [exact Ht'|]];
      subst st'; simpl; unfold DocumentPage.cleanup;
      try rewrite Href; done.
  - intros source fuel docId t st Hr Hin.
    destruct (run_keeps_one_pending source fuel 0 (PdfUploader.start docId))
      as [[[req Hreq] _]|[[_ (t' & Ht' & Href)]|[_ Ht']]].
    + left. split; [by eexists|done].
    + fold st in Hreq. congruence.
    + fold st in Ht', Href. rewrite Ht' in Hin.
      apply list_elem_of_singleton in Hin as ->. done.
    + fold st in Ht'. rewrite Ht' in Hin. by apply elem_of_nil in Hin.
Qed.

Lemma cancel_during_backoff_is_final_witness :
  let st := (PdfUploader.run allPending 1 0 (PdfUploader.start "doc7")).2 in
  let st' := PdfUploader.step PdfUploader.Cancel st in
  PdfUploader.steps
    [PdfUploader.TimerFires 1;
     PdfUploader.RequestSettles 0 (Resolved (mkDocument DocProcessed 3))] st'
  = st'.
Proof.
  intros st st'.
  refine (proj1 (proj1 cancel_during_backoff_is_final st
                       (mkTimer 1 1000 "doc7" 1)
                       [PdfUploader.TimerFires 1;
                        PdfUploader.RequestSettles 0
                          (Resolved (mkDocument DocProcessed 3))]
                       _ _ _ _)); reflexivity.
Defined.

(** C4, as stated, fails when the poll is cancelled while a status request
    is in flight: handleCancel leaves the request alone, and its response
    is not discarded.  A processed document sets the status back from Idle
    to Processed and calls onProcessed; a pending document arms a new
    timer, so polling goes on after the cancellation. *)
Lemma response_after_cancel_not_discarded :
  let doc := mkDocument DocProcessed 3 in
  let st := PdfUploader.start "doc7" in
  let cancelled := PdfUploader.step PdfUploader.Cancel st in
  PdfUploader.requests st = [mkRequest "doc7" 0]
  ∧ PdfUploader.status cancelled = PdfUploader.Idle
  ∧ PdfUploader.becomesReady doc cancelled
      (PdfUploader.step (PdfUploader.RequestSettles 0 (Resolved doc))
                        cancelled)
  ∧ PdfUploader.timers
      (PdfUploader.step (PdfUploader.RequestSettles 0 (Resolved pendingDoc))
                        cancelled)
    = [mkTimer 1 1000 "doc7" 1].
Proof. vm_compute. by repeat split. Qed.

(** A timer that is not the one the ref holds survives a cancel.  After a
    cancel with the request of [doc7] in flight and a second upload, both
    answers arm a timer and the ref holds the second; a cancel then clears
    the second timer only, and the first goes on to poll [doc7] and to
    report it as processed. *)
Example orphaned_timer_survives_cancel :
  let doc := mkDocument DocProcessed 3 in
  let st := PdfUploader.steps
              [PdfUploader.Cancel;
               PdfUploader.UploadResolved "doc8";
               PdfUploader.RequestSettles 0 (Resolved pendingDoc);
               PdfUploader.RequestSettles 0 (Resolved pendingDoc)]
              (PdfUploader.start "doc7") in
  let cancelled := PdfUploader.step PdfUploader.Cancel st in
  PdfUploader.requests st = []
  ∧ PdfUploader.timers st
    = [mkTimer 1 1000 "doc7" 1; mkTimer 2 1000 "doc8" 1]
  ∧ PdfUploader.pollTimeoutRef st = Some 2%nat
  ∧ PdfUploader.timers cancelled = [mkTimer 1 1000 "doc7" 1]
  ∧ PdfUploader.status
      (PdfUploader.steps
         [PdfUploader.TimerFires 1;
          PdfUploader.RequestSettles 0 (Resolved doc)] cancelled)
    = PdfUploader.Processed.
Proof. vm_compute. by repeat split. Qed.

End CancelTheorems.

(** * Further properties of the cache *)

Section CacheReadWrite.
Import Cache.

Lemma cleanExpiredEntries_empty now st :
  getCache st = ∅ → cleanExpiredEntries now st = st.
Proof.
  intros H. unfold cleanExpiredEntries. by rewrite H, map_to_list_empty.
Qed.

Lemma swept_swept now (cache : gmap string CachedSummary) :
  filter (λ kv, isExpired now kv.2 = false)
         (filter (λ kv, isExpired now kv.2 = false) cache)
  = filter (λ kv, isExpired now kv.2 = false) cache.
Proof.
  apply map_filter_id. intros k e He.
  by apply map_lookup_filter_Some in He as [_ ?].
Qed.

Lemma not_member_not_proto key :
  isPrototypeMember key = false → key ≠ "__proto__".
Proof. intros H ->. vm_compute in H. discriminate. Qed.

(** X1.  Write then read.  An entry written by setSummary under a key that
    takes one (every key but a free [__proto__]) is returned by a getSummary
    for the same document, scope and owner, as long as the read is not later
    than the stored expiry time and asks for the stored chunk count or for
    none; what the storage held before does not matter.  The stored expiry
    time is the call time plus the ttl, plus 24 hours for a ttl that is
    absent, 0 or NaN; an infinite ttl is stored as [null], which counts as
    time 0. *)
Theorem set_then_get_roundtrip
    (st : Storage) (docId payload scope : string) (owner : option string)
    (ttl : option JsNumber) (chunkCount ask : option Z) (t1 t2 : Z) :
  storesAt (generateCacheKey docId scope owner) (getCache st) →
  t2 <= toNumber (addToNow t1 (effectiveTtl ttl)) →
  ask = None ∨ ask = Some (default 0 chunkCount) →
  (getSummary docId scope owner ask t2
     (setSummary docId payload scope owner ttl chunkCount t1 st)).1
  = JsString payload.
Proof.
  intros Hs Ht Hask. rewrite getSummary_answer, getCache_setSummary.
  rewrite lookup_assign_eq by done. unfold answer, isExpired. simpl.
  assert ((toNumber (addToNow t1 (effectiveTtl ttl)) <? t2) = false) as ->
    by (apply Z.ltb_ge; lia).
  rewrite bool_decide_eq_true_2, andb_false_r by done.
  destruct Hask as [->| ->]; [done|]. by rewrite Z.eqb_refl.
Qed.

Lemma set_then_get_roundtrip_witness :
  (getSummary "doc42" "full" (Some "u1") (Some 5) 86400000
     (setSummary "doc42" "Executive summary text" "full" (Some "u1") None
                 (Some 5) 0 Unparseable)).1
  = JsString "Executive summary text".
Proof.
  refine (set_then_get_roundtrip Unparseable "doc42" "Executive summary text"
            "full" (Some "u1") None (Some 5) (Some 5) 0 86400000 _ _ _).
  - left. vm_compute. discriminate.
  - vm_compute. discriminate.
  - right. reflexivity.
Defined.

(** X2.  Absent or unreadable storage.  When localStorage holds no item, an
    unparseable item or an empty object, and the key asked for does not name
    a member of Object.prototype, every read and every removal returns
    nothing and writes nothing back (an unparseable item stays as it is),
    the statistics count no entry, and the first setSummary replaces the
    item by a cache that holds exactly the new entry. *)
Theorem empty_storage_reads_write_nothing
    (st : Storage) (docId payload scope : string) (owner : option string)
    (ttl : option JsNumber) (chunkCount ask : option Z) (now : Z) :
  getCache st = ∅ →
  isPrototypeMember (generateCacheKey docId scope owner) = false →
  getSummary docId scope owner ask now st = (JsNull, st)
  ∧ isCached docId scope owner ask now st = (false, st)
  ∧ removeSummary docId scope owner st = st
  ∧ removeAllSummariesForDocument docId owner st = st
  ∧ (∀ u, clearUserCache u st = st)
  ∧ getCacheStats owner now st = mkCacheStats 0 0 0 0
  ∧ getCache (setSummary docId payload scope owner ttl chunkCount now st)
    = {[generateCacheKey docId scope owner :=
          entryOf docId payload scope owner ttl chunkCount now]}.
Proof.
  intros H Hp.
  assert (getSummary docId scope owner ask now st = (JsNull, st)) as Hget.
  { unfold getSummary, property.
    rewrite cleanExpiredEntries_empty by done.
    by rewrite H, lookup_empty, Hp. }
  split; [done|]. split; [unfold isCached; by rewrite Hget|].
  split; [unfold removeSummary, property; by rewrite H, lookup_empty, Hp|].
  split; [unfold removeAllSummariesForDocument;
          by rewrite H, map_to_list_empty|].
  split; [intros u; unfold clearUserCache; by rewrite H, map_to_list_empty|].
  split.
  - unfold getCacheStats. rewrite H, map_to_list_empty. simpl.
    by destruct (truthy owner).
  - rewrite getCache_setSummary, H.
    destruct (assign_cases (generateCacheKey docId scope owner)
                (entryOf docId payload scope owner ttl chunkCount now) ∅)
      as [[_ ->]|(Hk & _ & _)]; [apply insert_empty|].
    by apply not_member_not_proto in Hp.
Qed.

Lemma empty_storage_reads_write_nothing_witness :
  getSummary "doc42" "full" (Some "u1") (Some 5) 10 Unparseable
  = (JsNull, Unparseable).
Proof.
  refine (proj1 (empty_storage_reads_write_nothing Unparseable "doc42" "text"
                  "full" (Some "u1") None None (Some 5) 10 eq_refl _)).
  vm_compute. reflexivity.
Defined.

(** X3.  Sweep on access.  Whatever key is asked for, the storage getSummary
    leaves behind holds no entry whose expiry time is before the time of the
    call, holds only entries that were there before, and still holds every
    unexpired entry stored under another key. *)
Theorem getSummary_sweeps_all_keys
    (st : Storage) (docId scope : string) (owner : option string)
    (ask : option Z) (now : Z) :
  let st' := (getSummary docId scope owner ask now st).2 in
  (∀ k e, getCache st' !! k = Some e →
          now <= toNumber (expiresAt e) ∧ getCache st !! k = Some e)
  ∧ (∀ k e, k ≠ generateCacheKey docId scope owner →
            getCache st !! k = Some e → now <= toNumber (expiresAt e) →
            getCache st' !! k = Some e).
Proof.
  intros st'. subst st'. rewrite getCache_getSummary.
  set (key := generateCacheKey docId scope owner).
  set (swept := filter (λ kv, isExpired now kv.2 = false) (getCache st)).
  assert (∀ k e, swept !! k = Some e
                 ↔ getCache st !! k = Some e
                   ∧ now <= toNumber (expiresAt e)) as Hsw.
  { intros k e. unfold swept. rewrite map_lookup_filter_Some.
    unfold isExpired. simpl. rewrite Z.ltb_ge. done. }
  assert (∀ c : gmap string CachedSummary,
            c = swept ∨ c = delete key swept →
            (∀ k e, c !! k = Some e →
                    now <= toNumber (expiresAt e)
                    ∧ getCache st !! k = Some e)
            ∧ (∀ k e, k ≠ key → getCache st !! k = Some e →
                      now <= toNumber (expiresAt e) → c !! k = Some e)) as Hc.
  { intros c [-> | ->]; split; intros k e.
    - rewrite Hsw. tauto.
    - intros _ ? ?. by apply Hsw.
    - rewrite lookup_delete_Some, Hsw. tauto.
    - intros ? ? ?. rewrite lookup_delete_ne by done. by apply Hsw. }
  apply Hc. destruct (swept !! key) as [e|]; [|by left].
  destruct ask as [c|]; [|by left].
  destruct (_ && _); [by right|by left].
Qed.

Lemma getSummary_sweeps_all_keys_witness :
  let st := setSummary "other" "old" "full" None (Some (Finite 5)) None 0
                       NoItem in
  getCache (getSummary "doc42" "full" None None 6 st).2
  !! generateCacheKey "other" "full" None = None.
Proof.
  intros st.
  destruct (getCache (getSummary "doc42" "full" None None 6 st).2
            !! generateCacheKey "other" "full" None) as [e|] eqn:He; [|done].
  exfalso.
  destruct (proj1 (getSummary_sweeps_all_keys st "doc42" "full" None None 6)
                  _ _ He) as [Hle Hin].
  vm_compute in Hin. injection Hin as <-. vm_compute in Hle. by apply Hle.
Defined.

(** X4.  A read can be repeated.  A second getSummary with the same
    arguments at the same time returns what the first returned and leaves
    the cache the first left; and a getSummary that returns a summary leaves
    the entry it read in place. *)
Theorem getSummary_repeatable
    (st : Storage) (docId scope : string) (owner : option string)
    (ask : option Z) (now : Z) :
  let key := generateCacheKey docId scope owner in
  let r := getSummary docId scope owner ask now st in
  (getSummary docId scope owner ask now r.2).1 = r.1
  ∧ getCache (getSummary docId scope owner ask now r.2).2 = getCache r.2
  ∧ ∀ s, r.1 = JsString s →
         ∃ e, getCache st !! key = Some e ∧ getCache r.2 !! key = Some e
              ∧ summary e = s.
Proof.
  intros key r.
  set (swept := filter (λ kv, isExpired now kv.2 = false) (getCache st)).
  set (evict :=
         match swept !! key, ask with
         | Some e, Some c =>
             negb (truthy owner && negb (bool_decide (userId e = owner)))
             && negb (chunkCount e =? c)
         | _, _ => false
         end).
  assert (getCache r.2 = if evict then delete key swept else swept) as Hc.
  { subst r. rewrite getCache_getSummary. fold key swept. unfold evict.
    destruct (swept !! key); [|done]. by destruct ask. }
  assert (r.1 = answer owner ask now key (swept !! key)) as Hr.
  { subst r. rewrite getSummary_answer. fold key. unfold swept.
    by rewrite answer_swept. }
  assert (filter (λ kv, isExpired now kv.2 = false) (getCache r.2)
          = getCache r.2) as Hfix.
  { rewrite Hc. destruct evict; [rewrite map_filter_delete|];
      unfold swept; by rewrite swept_swept. }
  assert (evict = true → r.1 = JsNull ∧ getCache r.2 !! key = None
                         ∧ ask ≠ None) as Hev.
  { intros He. rewrite Hc, He, lookup_delete_eq.
    rewrite Hr. unfold evict in He.
    destruct (swept !! key) as [e|] eqn:Hk; [|done].
    destruct ask as [c|]; [|done].
    split; [|done]. unfold answer.
    apply andb_true_iff in He as [Ho Hm]. apply negb_true_iff in Ho.
    assert (isExpired now e = false) as ->
      by by apply map_lookup_filter_Some in Hk as [_ ?].
    by rewrite Ho, Hm. }
  assert (evict = false → getCache r.2 !! key = swept !! key) as Hkeep.
  { intros He. by rewrite Hc, He. }
  split; [|split].
  - rewrite getSummary_answer. fold key.
    destruct evict eqn:He.
    + destruct (Hev eq_refl) as (-> & -> & Hask).
      destruct ask as [c|]; [|done]. apply answer_unstored_with_count.
    + rewrite Hkeep, Hr by done.
      destruct (swept !! key) as [e|] eqn:Hk; [|done].
      assert (isExpired now e = false) as Hne
        by by apply map_lookup_filter_Some in Hk as [_ ?].
      done.
  - rewrite getCache_getSummary. fold key. rewrite Hfix.
    destruct evict eqn:He.
    + destruct (Hev eq_refl) as (_ & -> & _). done.
    + rewrite Hkeep by done. unfold evict in He.
      destruct (swept !! key) as [e|]; [|done].
      destruct ask as [c|]; [|done]. by rewrite He.
  - intros s Hs. destruct evict eqn:He.
    { destruct (Hev eq_refl) as (Hn & _). congruence. }
    rewrite Hkeep by done. rewrite Hr in Hs.
    destruct (swept !! key) as [e|] eqn:Hk.
    2:{ unfold answer in Hs. destruct (isPrototypeMember key); [|done].
        destruct (truthy owner); [done|]. by destruct ask. }
    exists e. split; [by apply map_lookup_filter_Some in Hk as [? _]|].
    split; [done|].
    assert (isExpired now e = false) as Hne
      by by apply map_lookup_filter_Some in Hk as [_ ?].
    unfold answer in Hs. rewrite Hne in Hs.
    destruct (truthy owner && _); [done|].
    destruct ask as [c|]; [|congruence].
    destruct (negb (chunkCount e =? c)); [done|congruence].
Qed.

Lemma getSummary_repeatable_witness :
  let st := setSummary "doc42" "text" "full" None None (Some 5) 0 NoItem in
  ∃ e, getCache st !! generateCacheKey "doc42" "full" None = Some e
       ∧ getCache (getSummary "doc42" "full" None (Some 5) 1 st).2
         !! generateCacheKey "doc42" "full" None = Some e
       ∧ summary e = "text".
Proof.
  intros st.
  refine (proj2 (proj2 (getSummary_repeatable st "doc42" "full" None (Some 5) 1))
                "text" _).
  vm_compute. reflexivity.
Defined.

End CacheReadWrite.

Section CacheOverwrite.
Import Cache.

(** X5.  Last writer wins.  A second setSummary for the same document, scope
    and owner leaves the storage the second write alone would have left; a
    setSummary changes no other key; and it adds one entry when the key was
    free, except under the key [__proto__], and none when the key was
    taken. *)
Theorem setSummary_overwrites
    (st : Storage) (docId scope p1 p2 : string) (owner : option string)
    (ttl1 ttl2 : option JsNumber) (c1 c2 : option Z) (t1 t2 : Z) :
  let key := generateCacheKey docId scope owner in
  setSummary docId p2 scope owner ttl2 c2 t2
             (setSummary docId p1 scope owner ttl1 c1 t1 st)
  = setSummary docId p2 scope owner ttl2 c2 t2 st
  ∧ (∀ k, k ≠ key →
          getCache (setSummary docId p1 scope owner ttl1 c1 t1 st) !! k
          = getCache st !! k)
  ∧ totalEntries (getCacheStats None t1
                    (setSummary docId p1 scope owner ttl1 c1 t1 st))
    = match getCache st !! key with
      | Some _ => totalEntries (getCacheStats None t1 st)
      | None =>
          if bool_decide (key = "__proto__")
          then totalEntries (getCacheStats None t1 st)
          else S (totalEntries (getCacheStats None t1 st))
      end.
Proof.
  intros key. split; [|split].
  - assert (∀ e1 e2 (c : gmap string CachedSummary),
              assign key e2 (assign key e1 c) = assign key e2 c) as Ha.
    { intros e1 e2 c. unfold assign at 2 3.
      destruct (c !! key) eqn:Hk.
      - unfold assign. rewrite lookup_insert_eq. apply insert_insert_eq.
      - destruct (bool_decide (key = "__proto__")) eqn:Hp.
        + unfold assign. by rewrite Hk, Hp.
        + unfold assign. rewrite lookup_insert_eq. apply insert_insert_eq. }
    unfold setSummary, saveCache. cbn [getCache]. fold key. by rewrite Ha.
  - intros k Hk. rewrite getCache_setSummary. fold key.
    by rewrite lookup_assign_ne.
  - rewrite !totalEntries_size, getCache_setSummary. fold key.
    unfold assign. destruct (getCache st !! key) eqn:Hk.
    + rewrite map_size_insert. by rewrite Hk.
    + destruct (bool_decide (key = "__proto__")); [done|].
      rewrite map_size_insert. by rewrite Hk.
Qed.

Lemma setSummary_overwrites_witness :
  getCache (setSummary "doc42" "text" "full" None None None 0 NoItem)
  !! generateCacheKey "doc7" "full" None
  = getCache NoItem !! generateCacheKey "doc7" "full" None.
Proof.
  refine (proj1 (proj2 (setSummary_overwrites NoItem "doc42" "full" "text"
                          "text" None None None None None 0 0)) _ _).
  vm_compute. discriminate.
Defined.

End CacheOverwrite.

Section CacheEviction.
Import Cache.

Lemma existsb_false_filter_id (f : CachedSummary → bool)
    (cache : gmap string CachedSummary) :
  existsb (λ kv, f kv.2) (map_to_list cache) = false →
  filter (λ kv, f kv.2 = false) cache = cache.
Proof.
  intros H. apply map_filter_id. intros k e Hk. simpl.
  destruct (f e) eqn:He; [|done].
  assert (existsb (λ kv, f kv.2) (map_to_list cache) = true) as Ht.
  { apply existsb_exists. exists (k, e). split; [|done].
    apply list_elem_of_In. by apply elem_of_map_to_list. }
  congruence.
Qed.

Lemma getCache_removeAllSummariesForDocument docId userId st :
  getCache (removeAllSummariesForDocument docId userId st)
  = filter (λ kv, bool_decide (Cache.docId kv.2 = docId)
                  && (negb (truthy userId)
                      || bool_decide (Cache.userId kv.2 = userId)) = false)
           (getCache st).
Proof.
  unfold removeAllSummariesForDocument.
  destruct (existsb _ _) eqn:He; simpl; [done|].
  symmetry.
  exact (existsb_false_filter_id
           (λ item, bool_decide (Cache.docId item = docId)
                    && (negb (truthy userId)
                        || bool_decide (Cache.userId item = userId)))
           (getCache st) He).
Qed.

Lemma getCache_clearUserCache userId st :
  getCache (clearUserCache userId st)
  = filter (λ kv, bool_decide (Cache.userId kv.2 = Some userId) = false)
           (getCache st).
Proof.
  unfold clearUserCache.
  destruct (existsb _ _) eqn:He; simpl; [done|].
  symmetry.
  exact (existsb_false_filter_id
           (λ item, bool_decide (Cache.userId item = Some userId))
           (getCache st) He).
Qed.

(** X6.  removeSummary.  The key of (document, scope, owner) is free
    afterwards and every other key keeps its entry; any later getSummary for
    it returns no summary (null, when the key does not name a member of
    Object.prototype); when the key was already free and does not name such
    a member nothing is written, and when it was free and names one the
    cache is written back with the entries it had. *)
Theorem removeSummary_frees_key
    (st : Storage) (docId scope : string) (owner : option string) :
  let key := generateCacheKey docId scope owner in
  let st' := removeSummary docId scope owner st in
  getCache st' = delete key (getCache st)
  ∧ (∀ ask now s, (getSummary docId scope owner ask now st').1 ≠ JsString s)
  ∧ (isPrototypeMember key = false →
     ∀ ask now, (getSummary docId scope owner ask now st').1 = JsNull)
  ∧ (getCache st !! key = None →
     st' = if isPrototypeMember key then Item (getCache st) else st).
Proof.
  intros key st'.
  assert (∀ ask now,
            (getSummary docId scope owner ask now st').1
            = answer owner ask now key None) as Hget.
  { intros ask now. rewrite getSummary_answer. subst st'.
    by rewrite getCache_removeSummary, lookup_delete_eq. }
  split; [apply getCache_removeSummary|]. split; [|split].
  - intros ask now s. rewrite Hget. unfold answer.
    destruct (isPrototypeMember key); [|done].
    destruct (truthy owner); [done|]. by destruct ask.
  - intros Hp ask now. rewrite Hget. unfold answer. by rewrite Hp.
  - intros H. subst st'. unfold removeSummary, property. fold key.
    rewrite H. destruct (isPrototypeMember key); [|done].
    unfold saveCache. by rewrite delete_id.
Qed.

Lemma removeSummary_frees_key_witness :
  removeSummary "doc42" "full" None Unparseable = Unparseable.
Proof.
  exact (proj2 (proj2 (proj2 (removeSummary_frees_key Unparseable "doc42"
                                "full" None))) eq_refl).
Defined.

(** X7.  removeAllSummariesForDocument.  Afterwards no entry of the document is
    left (of the document and the owner, when an owner is given); every
    entry of another document is kept, and when an owner is given every
    entry of another owner is kept too. *)
Theorem removeAllSummariesForDocument_evicts
    (st : Storage) (docId : string) (owner : option string) :
  let st' := removeAllSummariesForDocument docId owner st in
  (∀ k e, getCache st' !! k = Some e →
          getCache st !! k = Some e
          ∧ ¬ (Cache.docId e = docId
               ∧ (truthy owner = true → Cache.userId e = owner)))
  ∧ (∀ k e, getCache st !! k = Some e → Cache.docId e ≠ docId →
            getCache st' !! k = Some e)
  ∧ (∀ k e, getCache st !! k = Some e → truthy owner = true →
            Cache.userId e ≠ owner → getCache st' !! k = Some e).
Proof.
  intros st'. subst st'. rewrite getCache_removeAllSummariesForDocument.
  split; [|split]; intros k e.
  - rewrite map_lookup_filter_Some. simpl. intros [Hk Hf].
    split; [done|]. intros [Hd Hu].
    rewrite bool_decide_eq_true_2 in Hf by done. simpl in Hf.
    destruct (truthy owner); simpl in Hf; [|done].
    by rewrite bool_decide_eq_true_2 in Hf by auto.
  - intros Hk Hd. apply map_lookup_filter_Some. split; [done|]. simpl.
    by rewrite bool_decide_eq_false_2.
  - intros Hk Ht Hu. apply map_lookup_filter_Some. split; [done|]. simpl.
    rewrite Ht. simpl. rewrite (bool_decide_eq_false_2 _ Hu).
    apply andb_false_r.
Qed.

Lemma removeAllSummariesForDocument_evicts_witness :
  let st := setSummary "doc42" "text" "full" (Some "u1") None None 0 NoItem in
  getCache (removeAllSummariesForDocument "doc7" None st)
  !! generateCacheKey "doc42" "full" (Some "u1")
  = Some (mkCachedSummary "text" 0 "doc42" "full" (Num 86400000)
                          (Some "u1") 0).
Proof.
  intros st.
  refine (proj1 (proj2 (removeAllSummariesForDocument_evicts st "doc7" None))
                _ _ _ _).
  - vm_compute. reflexivity.
  - simpl. discriminate.
Defined.

(** X8.  clearUserCache.  Afterwards the cache holds exactly the entries it held
    before whose userId is not the given one; for a non-empty user id the
    statistics of that user count no entry. *)
Theorem clearUserCache_removes_exactly_the_user
    (st : Storage) (u : string) (now : Z) :
  let st' := clearUserCache u st in
  (∀ k e, getCache st' !! k = Some e
          ↔ getCache st !! k = Some e ∧ Cache.userId e ≠ Some u)
  ∧ (u ≠ "" → userEntries (getCacheStats (Some u) now st') = 0%nat).
Proof.
  intros st'.
  assert (∀ k e, getCache st' !! k = Some e
                 ↔ getCache st !! k = Some e ∧ Cache.userId e ≠ Some u) as H.
  { intros k e. subst st'. rewrite getCache_clearUserCache.
    rewrite map_lookup_filter_Some. simpl.
    by rewrite bool_decide_eq_false. }
  split; [exact H|]. intros Hu. unfold getCacheStats.
  rewrite (truthy_Some_ne _ Hu). cbn [userEntries].
  apply length_zero_iff_nil.
  destruct (List.filter _ _) as [|e l] eqn:Hf; [done|]. exfalso.
  assert (In e (List.filter
                  (λ entry, bool_decide (Cache.userId entry = Some u))
                  (map_to_list (getCache st')).*2)) as Hin
    by (rewrite Hf; by left).
  apply filter_In in Hin as [Hin Hb]. apply bool_decide_eq_true in Hb.
  apply list_elem_of_In, list_elem_of_fmap in Hin as ([k e'] & -> & Hin).
  apply elem_of_map_to_list, H in Hin as [_ Hne]. done.
Qed.

Lemma clearUserCache_removes_exactly_the_user_witness :
  let st := setSummary "doc42" "text" "full" (Some "u1") None None 0 NoItem in
  userEntries (getCacheStats (Some "u1") 1 (clearUserCache "u1" st)) = 0%nat.
Proof.
  intros st.
  refine (proj2 (clearUserCache_removes_exactly_the_user st "u1" 1) _).
  discriminate.
Defined.

(** X9.  handleClearCache of the cache manager.  For a caller with a non-empty
    user id it removes that user's entries and keeps everybody else's; for a
    caller without one it removes the stored item altogether. *)
Theorem handleClearCache_scope (st : Storage) (userId : option string) :
  let st' := CacheManager.handleClearCache userId st in
  (truthy userId = true →
   ∀ k e, getCache st' !! k = Some e
          ↔ getCache st !! k = Some e ∧ Cache.userId e ≠ userId)
  ∧ (truthy userId = false → st' = NoItem).
Proof.
  intros st'. subst st'. unfold CacheManager.handleClearCache.
  destruct userId as [u|]; [|by split].
  destruct (truthy (Some u)) eqn:Ht; split; try done.
  intros _ k e. rewrite getCache_clearUserCache.
  rewrite map_lookup_filter_Some. simpl. by rewrite bool_decide_eq_false.
Qed.

Lemma handleClearCache_scope_witness :
  CacheManager.handleClearCache (Some "")
    (setSummary "doc42" "text" "full" (Some "u1") None None 0 NoItem)
  = NoItem.
Proof.
  refine (proj2 (handleClearCache_scope _ (Some "")) _). reflexivity.
Defined.

End CacheEviction.

Section CacheStatsAndOwners.
Import Cache.

Lemma filter_split_length {A} (f : A → bool) (l : list A) :
  (length (List.filter f l) + length (List.filter (λ x, negb (f x)) l))%nat
  = length l.
Proof.
  induction l as [|x l IH]; [done|]. simpl.
  destruct (f x); simpl; lia.
Qed.

Lemma filter_length_bound {A} (f : A → bool) (l : list A) :
  (length (List.filter f l) <= length l)%nat.
Proof. pose proof (filter_split_length f l). lia. Qed.

Lemma getCacheStats_counters_aux (st : Storage) (userId : option string)
    (now : Z) :
  let s := getCacheStats userId now st in
  userEntries s = (expiredEntries s + validEntries s)%nat
  ∧ (userEntries s <= totalEntries s)%nat.
Proof.
  unfold getCacheStats. cbn [userEntries expiredEntries validEntries
                             totalEntries].
  split; [by rewrite filter_split_length|].
  destruct (truthy userId); [apply filter_length_bound|done].
Qed.

(** X10.  The counters of getCacheStats.  The entries counted for the user are
    split into expired and valid ones, and are never more than all entries;
    without a user id (or with an empty one) every entry is counted. *)
Theorem getCacheStats_counters (st : Storage) (userId : option string)
    (now : Z) :
  let s := getCacheStats userId now st in
  userEntries s = (expiredEntries s + validEntries s)%nat
  ∧ (userEntries s <= totalEntries s)%nat
  ∧ (truthy userId = false → userEntries s = totalEntries s).
Proof.
  intros s.
  destruct (getCacheStats_counters_aux st userId now) as [H1 H2].
  split; [exact H1|]. split; [exact H2|].
  subst s. unfold getCacheStats. cbn [userEntries totalEntries].
  by intros ->.
Qed.

Lemma getCacheStats_counters_witness :
  userEntries (getCacheStats (Some "") 5
                 (setSummary "doc42" "text" "full" (Some "u1") None None 0
                             NoItem))
  = totalEntries (getCacheStats (Some "") 5
                    (setSummary "doc42" "text" "full" (Some "u1") None None 0
                                NoItem)).
Proof.
  refine (proj2 (proj2 (getCacheStats_counters _ (Some "") 5)) _).
  reflexivity.
Defined.

Lemma getSummary_leaves_unexpired docId scope owner ask now st k e :
  getCache (getSummary docId scope owner ask now st).2 !! k = Some e →
  isExpired now e = false.
Proof.
  rewrite getCache_getSummary.
  set (swept := filter (λ kv, isExpired now kv.2 = false) (getCache st)).
  assert (∀ c : gmap string CachedSummary,
            c = swept ∨ c = delete (generateCacheKey docId scope owner) swept →
            c !! k = Some e → isExpired now e = false) as Hc.
  { intros c [-> | ->].
    - by intros [_ ?]%map_lookup_filter_Some.
    - by intros [_ [_ ?]%map_lookup_filter_Some]%lookup_delete_Some. }
  apply Hc. destruct (swept !! _) as [e'|]; [|by left].
  destruct ask as [c|]; [|by left].
  destruct (_ && _); [by right|by left].
Qed.

(** X11.  Statistics after a read.  Right after any getSummary, getCacheStats at
    the same time counts no expired entry, for whatever user it is asked. *)
Theorem stats_after_read_count_no_expired
    (st : Storage) (docId scope : string) (owner userId : option string)
    (ask : option Z) (now : Z) :
  let s := getCacheStats userId now
             (getSummary docId scope owner ask now st).2 in
  expiredEntries s = 0%nat ∧ validEntries s = userEntries s.
Proof.
  intros s.
  assert (expiredEntries s = 0%nat) as H0.
  { subst s. unfold getCacheStats. cbn [expiredEntries].
    apply length_zero_iff_nil.
    destruct (List.filter (isExpired now) _) as [|e l] eqn:Hf; [done|].
    exfalso.
    assert (In e (e :: l)) as Hin by by left.
    rewrite <- Hf in Hin. apply filter_In in Hin as [Hin He].
    assert (e ∈ (map_to_list
                   (getCache (getSummary docId scope owner ask now st).2)).*2)
      as Hm.
    { destruct (truthy userId); [|by apply list_elem_of_In].
      apply filter_In in Hin as [Hin _]. by apply list_elem_of_In. }
    apply list_elem_of_fmap in Hm as ([k e'] & -> & Hm).
    apply elem_of_map_to_list, getSummary_leaves_unexpired in Hm.
    simpl in He. congruence. }
  split; [done|].
  pose proof (proj1 (getCacheStats_counters_aux
                       (getSummary docId scope owner ask now st).2 userId now)).
  fold s in H. lia.
Qed.

End CacheStatsAndOwners.

Section CacheOwnersAndKeys.
Import Cache.

(** X12.  What a hit means.  When getSummary hands a summary to a caller
    with a non-empty user id, the summary is the one of the entry stored
    under the caller's key, that entry carries the caller's user id, is not
    expired, and has the chunk count the caller asked for, if it asked for
    one. *)
Theorem getSummary_hit_is_own_valid_entry
    (st : Storage) (docId scope u payload : string) (ask : option Z)
    (now : Z) :
  u ≠ "" →
  (getSummary docId scope (Some u) ask now st).1 = JsString payload →
  ∃ e, getCache st !! generateCacheKey docId scope (Some u) = Some e
       ∧ summary e = payload
       ∧ Cache.userId e = Some u
       ∧ now <= toNumber (expiresAt e)
       ∧ ∀ c, ask = Some c → chunkCount e = c.
Proof.
  intros Hu. rewrite getSummary_answer.
  set (key := generateCacheKey docId scope (Some u)).
  unfold answer. rewrite (truthy_Some_ne _ Hu).
  destruct (getCache st !! key) as [e|];
    [|by destruct (isPrototypeMember key)].
  unfold isExpired.
  destruct (toNumber (expiresAt e) <? now) eqn:He;
    [by destruct (isPrototypeMember key)|].
  apply Z.ltb_ge in He.
  destruct (bool_decide (Cache.userId e = Some u)) eqn:Ho; [|done].
  apply bool_decide_eq_true in Ho. simpl.
  destruct ask as [c|].
  - destruct (chunkCount e =? c) eqn:Hc; [|done]. apply Z.eqb_eq in Hc.
    simpl. intros [= <-]. exists e. repeat split; try done.
    by intros c' [= <-].
  - intros [= <-]. exists e. by repeat split.
Qed.

Lemma getSummary_hit_is_own_valid_entry_witness :
  let st := setSummary "doc42" "text" "full" (Some "u1") None (Some 5) 0
                       NoItem in
  ∃ e, getCache st !! generateCacheKey "doc42" "full" (Some "u1") = Some e
       ∧ summary e = "text"
       ∧ Cache.userId e = Some "u1"
       ∧ 10 <= toNumber (expiresAt e)
       ∧ ∀ c, Some 5 = Some c → chunkCount e = c.
Proof.
  intros st.
  refine (getSummary_hit_is_own_valid_entry st "doc42" "full" "u1" "text"
            (Some 5) 10 _ _).
  - discriminate.
  - vm_compute. reflexivity.
Defined.

Lemma append_empty_r (a : string) : a +:+ "" = a.
Proof.
  induction a as [|x a IH]; [done|].
  change (String x (a +:+ "") = String x a). by rewrite IH.
Qed.

(** The key of (document, scope, owner u) is also the key of (document,
    scope_u, no owner). *)
Lemma generateCacheKey_collision (docId scope u : string) :
  u ≠ "" →
  generateCacheKey docId (scope +:+ "_" +:+ u) None
  = generateCacheKey docId scope (Some u).
Proof.
  intros Hu. unfold generateCacheKey. rewrite (truthy_Some_ne _ Hu).
  cbv beta iota zeta. by rewrite append_empty_r.
Qed.

(** X13.  A caller without user id is not held back by the owner check:
    the summary an owner [u] stored for (document, scope), under a key that
    takes an entry (any key but a free [__proto__]), is returned until its
    stored expiry time to a caller without user id that asks for the scope
    [scope_u] of the same document, because the two keys are the same
    string. *)
Theorem ownerless_read_returns_owned_entry
    (st : Storage) (docId scope u payload : string)
    (ttl : option JsNumber) (chunkCount : option Z) (t1 t2 : Z) :
  u ≠ "" →
  storesAt (generateCacheKey docId scope (Some u)) (getCache st) →
  t2 <= toNumber (addToNow t1 (effectiveTtl ttl)) →
  (getSummary docId (scope +:+ "_" +:+ u) None None t2
     (setSummary docId payload scope (Some u) ttl chunkCount t1 st)).1
  = JsString payload.
Proof.
  intros Hu Hs Ht.
  rewrite getSummary_answer, generateCacheKey_collision by done.
  rewrite getCache_setSummary, lookup_assign_eq by done.
  unfold answer, isExpired. simpl.
  by assert ((toNumber (addToNow t1 (effectiveTtl ttl)) <? t2) = false) as ->
    by (apply Z.ltb_ge; lia).
Qed.

Lemma ownerless_read_returns_owned_entry_witness :
  (getSummary "doc42" "full_u1" None None 10
     (setSummary "doc42" "text" "full" (Some "u1") None (Some 5) 0 NoItem)).1
  = JsString "text".
Proof.
  refine (ownerless_read_returns_owned_entry NoItem "doc42" "full" "u1" "text"
            None (Some 5) 0 10 _ _ _).
  - discriminate.
  - left. vm_compute. discriminate.
  - vm_compute. discriminate.
Defined.

Lemma wellKeyed_subseteq (c c' : gmap string CachedSummary) :
  c' ⊆ c → wellKeyed c → wellKeyed c'.
Proof.
  intros Hsub Hw k e Hk. apply Hw.
  by eapply lookup_weaken.
Qed.

(** X14.  Keys follow the entries.  In a storage where every key is the key of the
    fields of its entry (an absent or unreadable item is one), every
    operation of the cache manager leaves a storage with that property. *)
Theorem wellKeyed_invariant (st : Storage) :
  wellKeyed (getCache st) →
  (∀ docId summary scope userId ttl chunkCount now,
      wellKeyed (getCache (setSummary docId summary scope userId ttl
                                      chunkCount now st)))
  ∧ (∀ docId scope userId ask now,
        wellKeyed (getCache (getSummary docId scope userId ask now st).2))
  ∧ (∀ docId scope userId,
        wellKeyed (getCache (removeSummary docId scope userId st)))
  ∧ (∀ docId userId,
        wellKeyed (getCache (removeAllSummariesForDocument docId userId st)))
  ∧ (∀ userId, wellKeyed (getCache (clearUserCache userId st)))
  ∧ wellKeyed (getCache (clearAllCache st)).
Proof.
  intros Hw. repeat split.
  - intros docId summary scope userId ttl chunkCount now k e.
    rewrite getCache_setSummary.
    destruct (decide (k = generateCacheKey docId scope userId)) as [->|Hne];
      [|rewrite lookup_assign_ne by done; apply Hw].
    destruct (assign_cases (generateCacheKey docId scope userId)
                (entryOf docId summary scope userId ttl chunkCount now)
                (getCache st)) as [[_ ->]|(_ & _ & ->)]; [|apply Hw].
    rewrite lookup_insert_eq. by intros [= <-].
  - intros docId scope userId ask now. rewrite getCache_getSummary.
    assert (wellKeyed (filter (λ kv, isExpired now kv.2 = false)
                              (getCache st))) as Hs
      by (eapply wellKeyed_subseteq; [apply map_filter_subseteq|done]).
    destruct (_ !! _) as [e|]; [|done].
    destruct ask as [c|]; [|done].
    destruct (_ && _); [|done].
    eapply wellKeyed_subseteq; [apply delete_subseteq|done].
  - intros docId scope userId. rewrite getCache_removeSummary.
    eapply wellKeyed_subseteq; [apply delete_subseteq|done].
  - intros docId userId. rewrite getCache_removeAllSummariesForDocument.
    eapply wellKeyed_subseteq; [apply map_filter_subseteq|done].
  - intros userId. rewrite getCache_clearUserCache.
    eapply wellKeyed_subseteq; [apply map_filter_subseteq|done].
  - intros k e. simpl. by rewrite lookup_empty.
Qed.

Lemma wellKeyed_invariant_witness :
  wellKeyed (getCache (setSummary "doc42" "text" "full" (Some "u1") None
                                  (Some 5) 0 Unparseable)).
Proof.
  refine (proj1 (wellKeyed_invariant Unparseable _) _ _ _ _ _ _ _).
  intros k e. simpl. by rewrite lookup_empty.
Defined.

End CacheOwnersAndKeys.

Section CachePrototypeKeys.
Import Cache.

(** X24.  Keys that name a member of Object.prototype.  While the cache
    holds no entry under such a key, for a caller without user id: a
    getSummary without chunk count returns [undefined], so isCached answers
    true; a getSummary with a chunk count returns null and writes the swept
    cache back to storage, as removeSummary writes the cache back,
    also over a missing or unparseable item; and a setSummary under the key
    [__proto__] leaves the cache as it was. *)
Theorem prototype_key_without_entry
    (st : Storage) (docId scope : string) (now : Z) :
  let key := generateCacheKey docId scope None in
  isPrototypeMember key = true →
  getCache st !! key = None →
  (getSummary docId scope None None now st).1 = JsUndefined
  ∧ (isCached docId scope None None now st).1 = true
  ∧ (∀ c, getSummary docId scope None (Some c) now st
          = (JsNull,
             Item (filter (λ kv, isExpired now kv.2 = false) (getCache st))))
  ∧ removeSummary docId scope None st = Item (getCache st)
  ∧ (key = "__proto__" →
     ∀ summary ttl chunkCount t,
       getCache (setSummary docId summary scope None ttl chunkCount t st)
       = getCache st).
Proof.
  intros key Hm Hk.
  assert (filter (λ kv, isExpired now kv.2 = false) (getCache st) !! key
          = None) as Hs
    by (apply map_lookup_filter_None; by left).
  assert ((getSummary docId scope None None now st).1 = JsUndefined) as Hu.
  { rewrite getSummary_answer. fold key. rewrite Hk. unfold answer.
    by rewrite Hm. }
  split; [exact Hu|]. split; [|split; [|split]].
  - unfold isCached.
    destruct (getSummary docId scope None None now st) as [r st1].
    simpl in Hu. subst r. done.
  - intros c. unfold getSummary, removeSummary, property. fold key.
    rewrite getCache_cleanExpiredEntries, Hs, Hm. simpl.
    unfold saveCache. f_equal. f_equal. by apply delete_id.
  - unfold removeSummary, property, saveCache. fold key.
    rewrite Hk, Hm. f_equal. by apply delete_id.
  - intros Hp summary ttl chunkCount t. rewrite getCache_setSummary.
    fold key. unfold assign. by rewrite Hk, bool_decide_eq_true_2.
Qed.

Lemma prototype_key_without_entry_witness :
  (isCached "_" "proto__" None None 0 NoItem).1 = true.
Proof.
  refine (proj1 (proj2 (prototype_key_without_entry NoItem "_" "proto__" 0
                          _ _))).
  - vm_compute. reflexivity.
  - reflexivity.
Defined.

End CachePrototypeKeys.

(** * Further properties of the hooks of use-api.ts *)

Section HookTheorems.
Import Cache UseApi UseApiQueries.

(** The calls mutationFn makes are decided by the truthiness of what
    getSummary returns. *)
Lemma mutationFn_calls userId getDocument summarize data c now now' st :
  getDocument (doc_id data) = Some c →
  (mutationFn userId getDocument summarize data now now' st).2
  = if truthyValue
         (getSummary (doc_id data) (scopeOf data) userId (Some c) now st).1
    then [GetDocument (doc_id data)]
    else [GetDocument (doc_id data); Summarize data].
Proof.
  intros Hdoc. unfold mutationFn. rewrite Hdoc. fold (scopeOf data).
  destruct (getSummary _ _ _ _ _ _) as [r st1]. simpl.
  destruct (truthyValue r); [done|]. by destruct (summarize data).
Qed.

(** X15.  useCachedSummary and useSummarize agree.  On the same storage, at the
    same time and for the same scope, the query of useCachedSummary resolves
    to a cached summary exactly when useSummarize answers from the cache,
    with the same summary and chunk count; useSummarize then calls no
    summarize, and both leave the same storage. *)
Theorem cachedSummary_query_agrees_with_summarize
    (userId : option string) (getDocument : string → option Z)
    (summarize : SummarizeRequest → option string)
    (data : SummarizeRequest) (now now' : Z) (st : Storage) (s : string)
    (c : Z) :
  let q := useCachedSummary_queryFn userId getDocument (doc_id data)
                                    (scopeOf data) now st in
  let m := mutationFn userId getDocument summarize data now now' st in
  (q.1 = Some (Some (mkCachedSummaryData s true c))
   ↔ m.1.1 = Some (mkSummarizeResult s true c "loaded_from_cache"))
  ∧ (q.1 = Some (Some (mkCachedSummaryData s true c)) →
     m.2 = [GetDocument (doc_id data)] ∧ m.1.2 = q.2).
Proof.
  intros q m. subst q m. unfold useCachedSummary_queryFn, mutationFn.
  fold (scopeOf data).
  destruct (getDocument (doc_id data)) as [c'|]; [|by split].
  destruct (getSummary _ _ _ _ _ _) as [r st1]. simpl.
  destruct (truthyValue r); simpl.
  - split; [|done]. split; intros [= <- <-]; done.
  - split; [|done]. destruct (summarize data); by split.
Qed.

Lemma cachedSummary_query_agrees_with_summarize_witness :
  let st := setSummary "doc9" "S" "full" None None (Some 3) 0 NoItem in
  (mutationFn None (λ _, Some 3) (λ _, None)
              (mkSummarizeRequest "doc9" "" None) 1 2 st).2
  = [GetDocument "doc9"].
Proof.
  intros st.
  refine (proj1 (proj2 (cachedSummary_query_agrees_with_summarize None
                          (λ _, Some 3) (λ _, None)
                          (mkSummarizeRequest "doc9" "" None) 1 2 st "S" 3) _)).
  vm_compute. reflexivity.
Defined.

(** X16.  useIsSummaryCached and useSummarize.  When the query of
    useIsSummaryCached resolves to false, a useSummarize on the same storage
    at the same time calls summarize and returns its summary as generated. *)
Theorem not_cached_means_generated
    (userId : option string) (getDocument : string → option Z)
    (summarize : SummarizeRequest → option string)
    (data : SummarizeRequest) (now now' : Z) (st : Storage) (s : string) :
  (useIsSummaryCached_queryFn userId getDocument (doc_id data) (scopeOf data)
                              now st).1 = Some false →
  summarize data = Some s →
  ∃ c, getDocument (doc_id data) = Some c
       ∧ (mutationFn userId getDocument summarize data now now' st).1.1
         = Some (mkSummarizeResult s false c "generated_new")
       ∧ (mutationFn userId getDocument summarize data now now' st).2
         = [GetDocument (doc_id data); Summarize data].
Proof.
  unfold useIsSummaryCached_queryFn, isCached, mutationFn.
  fold (scopeOf data).
  destruct (getDocument (doc_id data)) as [c|]; [|done].
  destruct (getSummary _ _ _ _ _ _) as [r st1]. simpl.
  intros [= Hr] Hs. apply bool_decide_eq_false in Hr.
  destruct (decide (r = JsNull)) as [->|Hne]; [|done]. simpl. rewrite Hs.
  by exists c.
Qed.

Lemma not_cached_means_generated_witness :
  ∃ c, (λ _ : string, Some 3) "doc9" = Some c
       ∧ (mutationFn None (λ _, Some 3) (λ _, Some "S")
                     (mkSummarizeRequest "doc9" "full" None) 0 0 NoItem).1.1
         = Some (mkSummarizeResult "S" false c "generated_new")
       ∧ (mutationFn None (λ _, Some 3) (λ _, Some "S")
                     (mkSummarizeRequest "doc9" "full" None) 0 0 NoItem).2
         = [GetDocument "doc9";
            Summarize (mkSummarizeRequest "doc9" "full" None)].
Proof.
  refine (not_cached_means_generated None (λ _, Some 3) (λ _, Some "S")
            (mkSummarizeRequest "doc9" "full" None) 0 0 NoItem "S" _ _);
    reflexivity.
Defined.

(** X17.  Deleting a document.  After useSummarize generated a summary for
    a document and wrote it to the cache, the onSuccess of useDeleteDocument
    for that document evicts it: the next useSummarize for the document,
    whenever it runs and whatever the backend answers by then, does not
    answer from the cache.  When the document request is answered it calls
    summarize again; when it is rejected (the document is gone) the mutation
    is rejected after that one request. *)
Theorem deleted_document_summary_regenerated
    (userId : option string) (getDocument getDocument' : string → option Z)
    (summarize summarize' : SummarizeRequest → option string)
    (data : SummarizeRequest) (now now' now2 now2' : Z) (st : Storage) :
  let first := mutationFn userId getDocument summarize data now now' st in
  let second :=
    mutationFn userId getDocument' summarize' data now2 now2'
               (useDeleteDocument_onSuccess (doc_id data) first.1.2) in
  (∃ r, first.1.1 = Some r ∧ UseApi.fromCache r = false) →
  (∀ r, second.1.1 = Some r → UseApi.fromCache r = false)
  ∧ second.2
    = match getDocument' (doc_id data) with
      | Some _ => [GetDocument (doc_id data); Summarize data]
      | None => [GetDocument (doc_id data)]
      end
  ∧ (getDocument' (doc_id data) = None → second.1.1 = None).
Proof.
  intros first second (r & Hr & Hf).
  assert (∀ c', truthyValue
            (getSummary (doc_id data) (scopeOf data) userId (Some c') now2
               (useDeleteDocument_onSuccess (doc_id data) first.1.2)).1
            = false) as Hmiss.
  { intros c'. subst first. revert Hr.
    unfold mutationFn. fold (scopeOf data).
    destruct (getDocument (doc_id data)) as [c|]; [|done].
    destruct (getSummary (doc_id data) (scopeOf data) userId (Some c) now st)
      as [x st1].
    destruct (truthyValue x); cbn [fst snd]; [intros [= <-]; done|].
    destruct (summarize data) as [s|]; [|done]. cbn [fst snd]. intros _.
    rewrite getSummary_answer. unfold useDeleteDocument_onSuccess.
    rewrite getCache_removeAllSummariesForDocument, getCache_setSummary.
    set (key := generateCacheKey (doc_id data) (scopeOf data) userId).
    destruct (assign_cases key
                (entryOf (doc_id data) s (scopeOf data) userId None (Some c)
                         now')
                (getCache st1)) as [[_ ->]|(_ & Hk & ->)].
    - rewrite map_filter_insert_False.
      2:{ simpl. rewrite bool_decide_eq_true_2 by done. done. }
      rewrite map_filter_delete, lookup_delete_eq.
      by rewrite answer_unstored_with_count.
    - rewrite (proj2 (map_lookup_filter_None _ _ _)) by (by left).
      by rewrite answer_unstored_with_count. }
  subst second. unfold mutationFn at 1 2 3. fold (scopeOf data).
  destruct (getDocument' (doc_id data)) as [c'|]; [|done].
  specialize (Hmiss c').
  destruct (getSummary (doc_id data) (scopeOf data) userId (Some c') now2 _)
    as [y st2].
  cbn [fst snd] in Hmiss. rewrite Hmiss.
  destruct (summarize' data) as [s'|]; cbn [fst snd]; split; try done.
  by intros r' [= <-].
Qed.

Lemma deleted_document_summary_regenerated_witness :
  let data := mkSummarizeRequest "doc9" "full" None in
  let first := mutationFn None (λ _, Some 3) (λ _, Some "S") data 0 0 NoItem in
  (mutationFn None (λ _, None) (λ _, Some "S") data 1 1
     (useDeleteDocument_onSuccess "doc9" first.1.2)).2
  = [GetDocument "doc9"].
Proof.
  intros data first.
  refine (proj1 (proj2 (deleted_document_summary_regenerated None
                          (λ _, Some 3) (λ _, None) (λ _, Some "S")
                          (λ _, Some "S") data 0 0 1 1 NoItem _))).
  eexists. split; [vm_compute; reflexivity|reflexivity].
Defined.

Lemma answer_later_still_falsy userId ask now now2 key e :
  now <= now2 →
  truthyValue (answer userId ask now key (Some e)) = false →
  truthyValue (answer userId ask now2 key (Some e)) = false.
Proof.
  intros Hle.
  assert (∀ t, isExpired t e = true →
               truthyValue (answer userId ask t key (Some e)) = false) as Hex.
  { intros t Ht. rewrite answer_expired by done. unfold answer.
    destruct (isPrototypeMember key); [|done].
    destruct (truthy userId); [done|]. by destruct ask. }
  destruct (isExpired now2 e) eqn:H2; [intros _; by apply Hex|].
  assert (isExpired now e = false) as H1.
  { unfold isExpired in *. apply Z.ltb_ge. apply Z.ltb_ge in H2. lia. }
  unfold answer. by rewrite H1, H2.
Qed.

(** X18.  A failed generation is not cached.  When useSummarize misses the cache
    and summarize is rejected, the mutation is rejected, and a later
    useSummarize for the same request and chunk count calls summarize
    again. *)
Theorem failed_generation_is_retried
    (userId : option string) (getDocument : string → option Z)
    (summarize : SummarizeRequest → option string)
    (data : SummarizeRequest) (now now' now2 now2' : Z) (st : Storage) :
  let first := mutationFn userId getDocument summarize data now now' st in
  first.2 = [GetDocument (doc_id data); Summarize data] →
  summarize data = None →
  now <= now2 →
  first.1.1 = None
  ∧ (mutationFn userId getDocument summarize data now2 now2' first.1.2).2
    = [GetDocument (doc_id data); Summarize data].
Proof.
  intros first Hcalls Hs Hle. subst first.
  destruct (getDocument (doc_id data)) as [c|] eqn:Hdoc.
  2:{ revert Hcalls. unfold mutationFn. by rewrite Hdoc. }
  rewrite (mutationFn_calls _ _ _ _ c) in Hcalls by done.
  rewrite (mutationFn_calls _ _ _ _ c) by done.
  pose proof (getSummary_answer (doc_id data) (scopeOf data) userId (Some c)
                                now st) as Ha.
  pose proof (getCache_getSummary (doc_id data) (scopeOf data) userId (Some c)
                                  now st) as Hc.
  unfold mutationFn. rewrite Hdoc. fold (scopeOf data).
  destruct (getSummary (doc_id data) (scopeOf data) userId (Some c) now st)
    as [x st1].
  simpl in Ha, Hc, Hcalls. cbv zeta in Hc.
  destruct (truthyValue x) eqn:Hx; [done|]. rewrite Hs. simpl.
  split; [done|]. rewrite getSummary_answer, Hc.
  set (key := generateCacheKey (doc_id data) (scopeOf data) userId) in *.
  set (swept := filter (λ kv, isExpired now kv.2 = false) (getCache st)) in *.
  assert (∀ cache : gmap string CachedSummary,
            cache = swept ∨ cache = delete key swept →
            truthyValue (answer userId (Some c) now2 key (cache !! key))
            = false) as H.
  { intros cache [-> | ->];
      [|by rewrite lookup_delete_eq, answer_unstored_with_count].
    destruct (swept !! key) as [e|] eqn:Hk;
      [|by rewrite answer_unstored_with_count].
    apply map_lookup_filter_Some in Hk as [Hk _].
    apply (answer_later_still_falsy _ _ now); [done|].
    rewrite Hk in Ha. by rewrite <- Ha. }
  rewrite H; [done|].
  destruct (swept !! key) as [e|]; [|by left].
  destruct (_ && _); [by right|by left].
Qed.

Lemma failed_generation_is_retried_witness :
  let data := mkSummarizeRequest "doc9" "full" None in
  (mutationFn None (λ _, Some 3) (λ _, None) data 5 6
     (mutationFn None (λ _, Some 3) (λ _, None) data 0 0 NoItem).1.2).2
  = [GetDocument "doc9"; Summarize data].
Proof.
  intros data.
  refine (proj2 (failed_generation_is_retried None (λ _, Some 3) (λ _, None)
                   data 0 0 5 6 NoItem _ _ _)).
  - reflexivity.
  - reflexivity.
  - vm_compute. discriminate.
Defined.

End HookTheorems.

(** * Further properties of the status poller *)

Section PollRunTheorems.
Import PdfUploader.

(** One round of an undisturbed poll whose request in flight is answered by
    a pending document: the timer of the next attempt is armed and fires. *)
Lemma run_round_pending (source : nat → Response) (clock : Z) (st : State)
    (req : Request) :
  requests st = [req] → timers st = [] →
  source (reqAttempt req) = Resolved pendingDoc →
  ∃ st',
    run source 2 clock st = (clock + getBackoffDelay (reqAttempt req), st')
    ∧ requests st' = [mkRequest (reqDocId req) (reqAttempt req + 1)]
    ∧ timers st' = []
    ∧ status st' = status st
    ∧ statusCalls st' = S (statusCalls st)
    ∧ effects st' = effects st.
Proof.
  intros Hr Ht Hs. eexists. split.
  - simpl. rewrite Hr, Hs. simpl. rewrite Ht. simpl.
    rewrite Nat.eqb_refl. reflexivity.
  - simpl. done.
Qed.

Lemma run_pending_rounds (source : nat → Response) (j : nat) :
  ∀ (clock : Z) (st : State) (d : string) (a : nat),
    requests st = [mkRequest d a] → timers st = [] →
    (∀ i, (a <= i < a + j)%nat → source i = Resolved pendingDoc) →
    ∃ st',
      run source (2 * j) clock st = (clock + sumDelays a j, st')
      ∧ requests st' = [mkRequest d (a + j)]
      ∧ timers st' = []
      ∧ status st' = status st
      ∧ statusCalls st' = (statusCalls st + j)%nat
      ∧ effects st' = effects st.
Proof.
  induction j as [|j IH]; intros clock st d a Hr Ht Hs.
  - exists st. simpl. rewrite Z.add_0_r, Nat.add_0_r. by repeat split.
  - replace (2 * S j)%nat with (2 + 2 * j)%nat by lia.
    rewrite PdfUploader_run_add.
    destruct (run_round_pending source clock st _ Hr Ht)
      as (st1 & -> & Hr1 & Ht1 & Hst1 & Hc1 & He1).
    { simpl. apply Hs. lia. }
    cbn [fst snd reqAttempt reqDocId] in *.
    destruct (IH (clock + getBackoffDelay a) st1 d (a + 1)%nat Hr1 Ht1)
      as (st2 & -> & Hr2 & Ht2 & Hst2 & Hc2 & He2).
    { intros i Hi. apply Hs. lia. }
    exists st2. replace (a + 1)%nat with (S a) in * by lia.
    split; [simpl; f_equal; lia|].
    replace (a + S j)%nat with (S a + j)%nat by lia.
    repeat split; [done|done|congruence|lia|congruence].
Qed.

(** X19.  Pending, then ready.  When the first [k] probes of a poll report a
    pending document and the next one a document that is processed or has
    chunks, the poller ends in Processed after exactly [k + 1] requests, the
    waits between them are the backoff delays of attempts 0 to [k - 1], it
    calls onProcessed with that document, and nothing stays armed or in
    flight, whatever fuel is left. *)
Theorem pending_then_ready_completes
    (docId : string) (k extra : nat) (doc : Document) :
  doc_status doc = DocProcessed ∨ 0 < chunk_count doc →
  let r := run (pendingThen k (Resolved doc)) (2 * k + 1 + extra) 0
               (start docId) in
  r.1 = sumDelays 0 k
  ∧ status r.2 = Processed
  ∧ statusCalls r.2 = S k
  ∧ document r.2 = Some doc
  ∧ requests r.2 = [] ∧ timers r.2 = []
  ∧ effects r.2
    = effects (start docId)
      ++ [ToastSuccess "Document processed successfully!"; OnProcessed doc].
Proof.
  intros Hdoc r. subst r.
  replace (2 * k + 1 + extra)%nat with (2 * k + (1 + extra))%nat by lia.
  rewrite PdfUploader_run_add.
  destruct (run_pending_rounds (pendingThen k (Resolved doc)) k 0
              (start docId) docId 0)
    as (st1 & -> & Hr1 & Ht1 & Hst1 & Hc1 & He1); [done|done|..].
  { intros i Hi. unfold pendingThen.
    by assert ((i <? k)%nat = true) as -> by (apply Nat.ltb_lt; lia). }
  cbn [fst snd]. rewrite PdfUploader_run_add.
  assert ((bool_decide (doc_status doc = DocProcessed)
           || (0 <? chunk_count doc)) = true) as Hready.
  { destruct Hdoc as [H|H].
    - by rewrite bool_decide_eq_true_2.
    - apply orb_true_iff. right. by apply Z.ltb_lt. }
  assert (∃ st2, run (pendingThen k (Resolved doc)) 1 (0 + sumDelays 0 k) st1
                 = (0 + sumDelays 0 k, st2)
                 ∧ status st2 = Processed ∧ statusCalls st2 = statusCalls st1
                 ∧ document st2 = Some doc
                 ∧ requests st2 = [] ∧ timers st2 = []
                 ∧ effects st2
                   = effects st1
                     ++ [ToastSuccess "Document processed successfully!";
                         OnProcessed doc])
    as (st2 & -> & Hs2 & Hc2 & Hd2 & Hr2 & Ht2 & He2).
  { eexists. split.
    - simpl. rewrite Hr1. simpl. unfold pendingThen.
      rewrite Nat.ltb_irrefl. simpl. rewrite Hready. reflexivity.
    - simpl. rewrite Ht1, <- app_assoc. done. }
  cbn [fst snd]. rewrite PdfUploader_run_quiescent by done.
  cbn [fst snd]. rewrite Hc2, Hc1, He2, He1.
  repeat split; first [done | simpl; lia].
Qed.

Lemma pending_then_ready_completes_witness :
  let r := run (pendingThen 4 (Resolved (mkDocument DocProcessed 3)))
               (2 * 4 + 1 + 0) 0 (start "doc7") in
  r.1 = 15000 ∧ status r.2 = Processed ∧ statusCalls r.2 = 5%nat.
Proof.
  intros r.
  destruct (pending_then_ready_completes "doc7" 4 0 (mkDocument DocProcessed 3)
              ltac:(left; reflexivity))
    as (H1 & H2 & H3 & _).
  split; [exact H1|]. split; [exact H2|exact H3].
Defined.

End PollRunTheorems.

Section PollInvariantTheorems.
Import PdfUploader.

(** X20.  Probes are sequential.  In a poll left alone, whatever the status source
    answers, there is never more than one thing pending (a request in flight
    or an armed timer), an armed timer is the one the ref holds, and
    whenever no request is in flight a cancel stops the poll for good:
    no later completion changes the state. *)
Theorem undisturbed_poll_is_sequential
    (source : nat → Response) (fuel : nat) (docId : string) :
  let st := (run source fuel 0 (start docId)).2 in
  (length (requests st) + length (timers st) <= 1)%nat
  ∧ (∀ t, t ∈ timers st → pollTimeoutRef st = Some (timerId t))
  ∧ (requests st = [] →
     ∀ evs, forallb isCompletion evs = true →
            steps evs (step Cancel st) = step Cancel st).
Proof.
  intros st.
  assert (((∃ req, requests st = [req]) ∧ timers st = [])
          ∨ (requests st = []
             ∧ ∃ t, timers st = [t] ∧ pollTimeoutRef st = Some (timerId t))
          ∨ (requests st = [] ∧ timers st = [])) as Hinv.
  { apply run_keeps_one_pending. left. split; [by eexists|done]. }
  destruct Hinv as [[[req Hr] Ht]|[[Hr (t & Ht & Href)]|[Hr Ht]]].
  - rewrite Hr, Ht. split; [simpl; lia|]. split; [by intros t ?%elem_of_nil|].
    done.
  - rewrite Hr, Ht. split; [simpl; lia|]. split.
    { by intros t' ->%list_elem_of_singleton. }
    intros _ evs Hevs. apply PdfUploader_steps_idle; [| |done].
    + simpl. unfold handleCancel. by rewrite Href.
    + simpl. unfold handleCancel. rewrite Href, Ht. simpl.
      by rewrite Nat.eqb_refl.
  - rewrite Hr, Ht. split; [simpl; lia|]. split; [by intros t ?%elem_of_nil|].
    intros _ evs Hevs. apply PdfUploader_steps_idle; [| |done].
    + simpl. unfold handleCancel. by destruct (pollTimeoutRef st).
    + simpl. unfold handleCancel. destruct (pollTimeoutRef st); simpl;
        by rewrite Ht.
Qed.

Lemma undisturbed_poll_is_sequential_witness :
  let st := (run allPending 3 0 (start "doc7")).2 in
  steps [TimerFires 2] (step Cancel st) = step Cancel st.
Proof.
  intros st.
  refine (proj2 (proj2 (undisturbed_poll_is_sequential allPending 3 "doc7"))
                _ [TimerFires 2] _); reflexivity.
Defined.

Lemma run_ends_by_attempt_10 (source : nat → Response) (n : nat) :
  source 10%nat = Rejected →
  ∀ (a extra : nat) (clock : Z) (st : State) (d : string),
    (a + n = 10)%nat →
    requests st = [mkRequest d a] → timers st = [] →
    statusCalls st = S a →
    let st' := (run source (2 * n + 1 + extra) clock st).2 in
    requests st' = [] ∧ timers st' = [] ∧ (statusCalls st' <= 11)%nat.
Proof.
  intros H10. induction n as [|n IH]; intros a extra clock st d Ha Hr Ht Hc.
  - assert (a = 10%nat) as -> by lia. simpl. rewrite Hr. simpl.
    rewrite H10. simpl.
    rewrite PdfUploader_run_quiescent by (simpl; by rewrite ?Ht).
    simpl. rewrite Ht, Hc. repeat split; lia.
  - replace (2 * S n + 1 + extra)%nat
      with (S (S (2 * n + 1 + extra))) by lia.
    set (m := (2 * n + 1 + extra)%nat).
    cbn [run]. rewrite Hr.
    assert (∀ st1 : State,
              requests st1 = [] →
              timers st1 = [mkTimer (nextTimerId st) (getBackoffDelay a) d
                                    (a + 1)] →
              statusCalls st1 = S a →
              let st' := (run source (S m) clock st1).2 in
              requests st' = [] ∧ timers st' = []
              ∧ (statusCalls st' <= 11)%nat) as Hcont.
    { intros st1 Hr1 Ht1 Hc1. cbn [run]. rewrite Hr1, Ht1.
      apply (IH (a + 1)%nat extra _ _ d); [lia|..].
      all: simpl; rewrite ?Ht1; simpl; rewrite ?Nat.eqb_refl; simpl;
        rewrite ?Hr1, ?Hc1; first [done | lia]. }
    assert (∀ st1 : State,
              requests st1 = [] → timers st1 = [] → statusCalls st1 = S a →
              let st' := (run source (S m) clock st1).2 in
              requests st' = [] ∧ timers st' = []
              ∧ (statusCalls st' <= 11)%nat) as Hstop.
    { intros st1 Hr1 Ht1 Hc1.
      rewrite PdfUploader_run_quiescent by done. simpl.
      repeat split; [done|done|lia]. }
    simpl step. rewrite Hr. simpl.
    unfold pollDocumentStatus_settled. simpl.
    destruct (source a) as [doc|].
    + destruct (bool_decide (doc_status doc = DocProcessed)
                || (0 <? chunk_count doc)).
      { apply Hstop; simpl; by rewrite ?Ht. }
      destruct (bool_decide (doc_status doc = DocError)).
      { apply Hstop; simpl; by rewrite ?Ht. }
      apply Hcont; simpl; by rewrite ?Ht.
    + assert ((a <? 10)%nat = true) as -> by (apply Nat.ltb_lt; lia).
      apply Hcont; simpl; by rewrite ?Ht.
Qed.

(** X21.  The rejection budget bounds the poll.  Whatever the first ten probes
    answer, if the probe of attempt 10 is rejected the poller sends at most
    11 requests and, given fuel for 21 events or more, ends with nothing
    armed and nothing in flight. *)
Theorem rejection_at_attempt_10_ends_poll
    (source : nat → Response) (docId : string) (extra : nat) :
  source 10%nat = Rejected →
  let st := (run source (21 + extra) 0 (start docId)).2 in
  requests st = [] ∧ timers st = [] ∧ (statusCalls st <= 11)%nat.
Proof.
  intros H10.
  apply (run_ends_by_attempt_10 source 10 H10 0 extra 0 (start docId) docId);
    done.
Qed.

Lemma rejection_at_attempt_10_ends_poll_witness :
  let st := (run (pendingThen 10 Rejected) (21 + 0) 0 (start "doc7")).2 in
  requests st = [] ∧ timers st = [] ∧ (statusCalls st <= 11)%nat.
Proof.
  exact (rejection_at_attempt_10_ends_poll (pendingThen 10 Rejected) "doc7" 0
           eq_refl).
Defined.

(** X22.  Explicit failure.  When a status request resolves with a document, the
    uploader makes the transition to failed exactly when the document has
    status error and no chunks; it then arms no timer, whatever the attempt
    index.  A document in error that has chunks counts as ready. *)
Theorem failed_iff_error_without_chunks (doc : Document) :
  ∀ st i req,
    requests st !! i = Some req →
    becomesFailed st (step (RequestSettles i (Resolved doc)) st)
    ↔ doc_status doc = DocError ∧ chunk_count doc <= 0.
Proof.
  intros st i req Hreq. simpl. rewrite Hreq.
  unfold pollDocumentStatus_settled, becomesFailed.
  destruct (0 <? chunk_count doc) eqn:Hc;
    [apply Z.ltb_lt in Hc|apply Z.ltb_ge in Hc].
  { rewrite orb_true_r. simpl. split; [intros [? _]; done|lia]. }
  rewrite orb_false_r.
  destruct (bool_decide (doc_status doc = DocProcessed)) eqn:Hp;
    [apply bool_decide_eq_true in Hp|apply bool_decide_eq_false in Hp].
  { simpl. split; [intros [? _]; done|]. intros [? _]. congruence. }
  destruct (bool_decide (doc_status doc = DocError)) eqn:He;
    [apply bool_decide_eq_true in He|apply bool_decide_eq_false in He];
    simpl.
  - split; [done|]. intros _. repeat split; try done. by eexists.
  - split; [|by intros [? _]].
    intros (_ & _ & H & _). by apply app_singleton_ne in H.
Qed.

Lemma failed_iff_error_without_chunks_witness :
  becomesFailed (start "doc7")
    (step (RequestSettles 0 (Resolved (mkDocument DocError 0)))
          (start "doc7")).
Proof.
  refine (proj2 (failed_iff_error_without_chunks (mkDocument DocError 0)
                   (start "doc7") 0%nat (mkRequest "doc7" 0) eq_refl) _).
  split; [reflexivity|]. simpl. lia.
Defined.

End PollInvariantTheorems.

Section PageLoadTheorems.
Import DocumentPage.

(** X23.  The page and its poller use complementary tests.  For a document with a
    non-negative chunk count, loadDocument starts the poll exactly when the
    poller, given that same document as the answer to a probe, would arm
    the timer of another attempt; a rejected load starts no poll. *)
Theorem load_starts_poll_iff_poller_continues
    (docId : string) (doc : Document) (st : State) :
  0 <= chunk_count doc →
  (statusCalls (step (Loaded docId (Resolved doc)) st) = S (statusCalls st)
   ↔ timers (step (RequestSettles 0 (Resolved doc)) (start docId)) ≠ [])
  ∧ (statusCalls (step (Loaded docId (Resolved doc)) st) = statusCalls st
     ↔ timers (step (RequestSettles 0 (Resolved doc)) (start docId)) = [])
  ∧ statusCalls (step (Loaded docId Rejected) st) = statusCalls st.
Proof.
  intros Hc. simpl. unfold loadDocument_settled, pollDocumentStatus_settled.
  simpl.
  destruct (chunk_count doc =? 0) eqn:H0;
    [apply Z.eqb_eq in H0|apply Z.eqb_neq in H0];
    (destruct (0 <? chunk_count doc) eqn:Hpos;
       [apply Z.ltb_lt in Hpos|apply Z.ltb_ge in Hpos]);
    try lia;
    destruct (bool_decide (doc_status doc = DocProcessed));
    destruct (bool_decide (doc_status doc = DocError));
    simpl; repeat split; intros; first [done | lia].
Qed.

Lemma load_starts_poll_iff_poller_continues_witness :
  statusCalls (step (Loaded "doc7" (Resolved pendingDoc)) init)
  = S (statusCalls init).
Proof.
  refine (proj2 (proj1 (load_starts_poll_iff_poller_continues "doc7"
                          pendingDoc init _)) _).
  - simpl. lia.
  - discriminate.
Defined.

End PageLoadTheorems.
